(** * Execution lifecycle tracker of the A2A product-manager agent

    A shallow embedding of [src/a2a/agent/executor.py] (class
    [AgentExecutor]), of the status endpoint of
    [src/a2a/agent/a2a_server.py] and of the chat endpoint of
    [src/a2a/api/chat.py], followed by the properties the specification
    states about them.

    Python dictionaries are insertion-ordered association lists with
    unique keys; the executor's methods live in a state-and-exception
    monad over a [World] holding [self.executions] together with the
    environment the code consults: the identifiers [uuid.uuid4()] will
    return, the readings [datetime.utcnow()] will return, and a log of
    the calls made to the message processor.  Sequences of calls are
    runs of an event loop in which an [execute] call may be suspended
    at its one [await] while other handlers run.  Logging is left
    out. *)

From Stdlib Require Import String Ascii List ZArith Bool Arith Lia.
From Stdlib Require Import DecimalString.
Import ListNotations.
Local Open Scope list_scope.
Local Open Scope string_scope.

(* ================================================================== *)
(** ** Python dictionaries with string keys *)

Module PyDict.

Section Dict.
Context {V : Type}.

Definition t : Type := list (string * V).

(** [d.get(k)] / [k in d] / [d[k]] all start from this lookup. *)
Fixpoint get (k : string) (d : t) : option V :=
  match d with
  | [] => None
  | (k', v) :: d' => if String.eqb k k' then Some v else get k d'
  end.

(** [k in d] *)
Definition mem (k : string) (d : t) : bool :=
  match get k d with Some _ => true | None => false end.

(** [d.get(k, default)] *)
Definition get_or (k : string) (default : V) (d : t) : V :=
  match get k d with Some v => v | None => default end.

(** [d[k] = v]: an existing key keeps its position, a new key goes
    last. *)
Fixpoint set (k : string) (v : V) (d : t) : t :=
  match d with
  | [] => [(k, v)]
  | (k', v') :: d' =>
      if String.eqb k k' then (k, v) :: d' else (k', v') :: set k v d'
  end.

(** [d.keys()] and [d.items()] *)
Definition keys (d : t) : list string := map fst d.
Definition items (d : t) : list (string * V) := d.

End Dict.

Arguments t : clear implicits.

End PyDict.


(* ================================================================== *)
(** ** Values

    [Dict[str, Any]]: what a request body or a returned payload may
    hold.  Numbers are integers here; truthiness only asks whether a
    number is zero. *)

#[warnings="-register-all"]
Inductive Any : Type :=
| VNone
| VBool (b : bool)
| VInt (z : Z)
| VStr (s : string)
| VList (l : list Any)
| VDict (d : list (string * Any)).

Definition Dict : Type := PyDict.t Any.

(** Python truthiness, as used by [if not message]. *)
Definition truthy (v : Any) : bool :=
  match v with
  | VNone => false
  | VBool b => b
  | VInt z => negb (Z.eqb z 0)
  | VStr s => negb (String.eqb s "")
  | VList l => match l with [] => false | _ => true end
  | VDict d => match d with [] => false | _ => true end
  end.

(** [v == s] for a string literal [s]. *)
Definition eq_str (v : Any) (s : string) : bool :=
  match v with VStr s' => String.eqb s' s | _ => false end.

(** [x or y] *)
Definition py_or (x y : Any) : Any := if truthy x then x else y.

(** [needle in hay] on strings. *)
Fixpoint contains (needle hay : string) : bool :=
  String.prefix needle hay ||
  match hay with
  | EmptyString => false
  | String _ rest => contains needle rest
  end.

(* ================================================================== *)
(** ** Timestamps

    A naive [datetime] and its [isoformat()]:
    [YYYY-MM-DDTHH:MM:SS], followed by [.ffffff] when the microsecond
    is not zero. *)

Record datetime : Type := mkDatetime {
  year : nat; month : nat; day : nat;
  hour : nat; minute : nat; second : nat; microsecond : nat
}.

Definition digits (n : nat) : string := NilZero.string_of_uint (Nat.to_uint n).

Fixpoint zeros (n : nat) : string :=
  match n with O => "" | S n' => String "0" (zeros n') end.

(** ["%0<width>d"] *)
Definition zfill (width n : nat) : string :=
  let s := digits n in zeros (width - String.length s) ++ s.

Definition isoformat (t : datetime) : string :=
  zfill 4 (year t) ++ "-" ++ zfill 2 (month t) ++ "-" ++ zfill 2 (day t) ++ "T" ++
  zfill 2 (hour t) ++ ":" ++ zfill 2 (minute t) ++ ":" ++ zfill 2 (second t) ++
  (if Nat.eqb (microsecond t) 0 then "" else "." ++ zfill 6 (microsecond t)).

(** [x.isoformat() if x else None]; a [datetime] object is always
    truthy, so only [None] takes the second branch. *)
Definition isoformat_or_none (x : option datetime) : Any :=
  match x with Some t => VStr (isoformat t) | None => VNone end.

(* ================================================================== *)
(** ** Execution records *)

Inductive ExecutionStatus : Type :=
| PENDING | RUNNING | COMPLETED | CANCELLED | FAILED.

(** [ExecutionStatus.<X>.value] *)
Definition value_of (s : ExecutionStatus) : string :=
  match s with
  | PENDING => "pending"
  | RUNNING => "running"
  | COMPLETED => "completed"
  | CANCELLED => "cancelled"
  | FAILED => "failed"
  end.

Definition status_eqb (a b : ExecutionStatus) : bool :=
  match a, b with
  | PENDING, PENDING | RUNNING, RUNNING | COMPLETED, COMPLETED
  | CANCELLED, CANCELLED | FAILED, FAILED => true
  | _, _ => false
  end.

(** The dictionary stored under each execution id; its seven keys are
    fixed at creation (executor.py, lines 52-60). *)
Record Execution : Type := mkExecution {
  id : string;
  status : ExecutionStatus;
  request : Dict;
  result : option Dict;
  error : option string;
  start_time : option datetime;
  end_time : option datetime
}.

Definition set_status (s : ExecutionStatus) (e : Execution) : Execution :=
  mkExecution (id e) s (request e) (result e) (error e) (start_time e) (end_time e).

(** [e.update({"status": COMPLETED, "result": r, "end_time": t})] *)
Definition set_completed (r : Dict) (t : datetime) (e : Execution) : Execution :=
  mkExecution (id e) COMPLETED (request e) (Some r) (error e) (start_time e) (Some t).

(** [e.update({"status": FAILED, "error": msg, "end_time": t})] *)
Definition set_failed (msg : string) (t : datetime) (e : Execution) : Execution :=
  mkExecution (id e) FAILED (request e) (result e) (Some msg) (start_time e) (Some t).

(** [e.update({"status": CANCELLED, "end_time": t})] *)
Definition set_cancelled (t : datetime) (e : Execution) : Execution :=
  mkExecution (id e) CANCELLED (request e) (result e) (error e) (start_time e) (Some t).

(* ================================================================== *)
(** ** Exceptions and the message processor *)

(** The exceptions ([Exception] subclasses) the modelled code meets.
    [OtherError] stands for any further class, carrying [str(e)].
    What lies outside [Exception] ([asyncio.CancelledError],
    [KeyboardInterrupt], [SystemExit]) is not caught by the
    [except Exception] clauses; module [Full] below adds it. *)
Inductive exn : Type :=
| KeyError (key : string)
| ValueError (msg : string)
| OtherError (msg : string).

(** [repr(s)] of a string, which is what [str] of a [KeyError] shows:
    double quotes when the string holds a single quote and no double
    quote, single quotes otherwise; the chosen quote and the backslash
    are escaped, tab, newline and carriage return are written with
    their letter, the other control characters as two hexadecimal
    digits.  Bytes above 127 are kept: the characters they encode are
    taken to be printable. *)
Definition squote : ascii := ascii_of_nat 39.
Definition dquote : ascii := ascii_of_nat 34.
Definition backslash : ascii := ascii_of_nat 92.

Fixpoint has_char (c : ascii) (s : string) : bool :=
  match s with
  | EmptyString => false
  | String c' s' => Ascii.eqb c c' || has_char c s'
  end.

Definition hex_digit (n : nat) : ascii :=
  nth n (list_ascii_of_string "0123456789abcdef") "0"%char.

Definition repr_char (quote c : ascii) : string :=
  let n := nat_of_ascii c in
  if Ascii.eqb c quote || Ascii.eqb c backslash then String backslash (String c "")
  else if Nat.eqb n 9 then String backslash "t"
  else if Nat.eqb n 10 then String backslash "n"
  else if Nat.eqb n 13 then String backslash "r"
  else if Nat.ltb n 32 || Nat.eqb n 127
       then String backslash
              (String "x" (String (hex_digit (n / 16)) (String (hex_digit (n mod 16)) "")))
  else String c "".

Fixpoint repr_body (quote : ascii) (s : string) : string :=
  match s with
  | EmptyString => ""
  | String c s' => repr_char quote c ++ repr_body quote s'
  end.

Definition py_repr (s : string) : string :=
  let quote :=
    if has_char squote s && negb (has_char dquote s) then dquote else squote in
  String quote (repr_body quote s ++ String quote "").

(** [str(e)]; a [KeyError] shows the [repr] of its key. *)
Definition str (e : exn) : string :=
  match e with
  | KeyError k => py_repr k
  | ValueError m => m
  | OtherError m => m
  end.

(** What one [await self.product_manager.process_message(message)]
    evaluates to: the processor is an opaque collaborator that returns
    a text or raises. *)
Inductive outcome : Type :=
| Returned (response : string)
| Raised (e : exn).

(* ================================================================== *)
(** ** The world and the monad *)

Record World : Type := mkWorld {
  executions : PyDict.t Execution;   (* self.executions *)
  uuid_source : nat -> string;       (* what the coming uuid.uuid4() calls return *)
  clock : nat -> datetime;           (* what the coming datetime.utcnow() calls return *)
  processor_calls : list Any         (* arguments of the process_message calls so far *)
}.

Definition with_executions (d : PyDict.t Execution) (w : World) : World :=
  mkWorld d (uuid_source w) (clock w) (processor_calls w).

(** A computation changes the world and returns a value or raises;
    what it changed before raising stays changed. *)
Definition M (A : Type) : Type := World -> (A + exn) * World.

Definition ret {A} (a : A) : M A := fun w => (inl a, w).

Definition raise {A} (e : exn) : M A := fun w => (inr e, w).

Definition bind {A B} (c : M A) (k : A -> M B) : M B :=
  fun w =>
    match c w with
    | (inl a, w') => k a w'
    | (inr e, w') => (inr e, w')
    end.

(** [try: body  except Exception as e: handler(e)] *)
Definition try_except {A} (body : M A) (handler : exn -> M A) : M A :=
  fun w =>
    match body w with
    | (inl a, w') => (inl a, w')
    | (inr e, w') => handler e w'
    end.

Notation "x <- c1 ;; c2" := (bind c1 (fun x => c2))
  (at level 61, c1 at next level, right associativity).
Notation "c1 ;; c2" := (bind c1 (fun _ => c2))
  (at level 61, right associativity).

(** [str(uuid.uuid4())] *)
Definition uuid4 : M string :=
  fun w => (inl (uuid_source w 0),
            mkWorld (executions w) (fun n => uuid_source w (S n)) (clock w)
                    (processor_calls w)).

(** [datetime.utcnow()] *)
Definition utcnow : M datetime :=
  fun w => (inl (clock w 0),
            mkWorld (executions w) (uuid_source w) (fun n => clock w (S n))
                    (processor_calls w)).

(** [self.executions[k] = e] *)
Definition setitem (k : string) (e : Execution) : M unit :=
  fun w => (inl tt, with_executions (PyDict.set k e (executions w)) w).

(** [self.executions[k]] *)
Definition getitem (k : string) : M Execution :=
  fun w =>
    match PyDict.get k (executions w) with
    | Some e => (inl e, w)
    | None => (inr (KeyError k), w)
    end.

(** [k in self.executions] *)
Definition has_execution (k : string) : M bool :=
  fun w => (inl (PyDict.mem k (executions w)), w).

(** In-place change of the record object stored under [k], through a
    reference obtained earlier. *)
Definition mutate (k : string) (f : Execution -> Execution) : M unit :=
  fun w =>
    match PyDict.get k (executions w) with
    | Some e => (inl tt, with_executions (PyDict.set k (f e) (executions w)) w)
    | None => (inl tt, w)
    end.

(** The call [process_message(message)] is made ... *)
Definition call_processor (message : Any) : M unit :=
  fun w => (inl tt,
            mkWorld (executions w) (uuid_source w) (clock w)
                    (processor_calls w ++ [message])%list).

(** ... and awaited. *)
Definition await_processor (o : outcome) : M string :=
  match o with
  | Returned response => ret response
  | Raised e => raise e
  end.

Definition process_message (o : outcome) (message : Any) : M string :=
  call_processor message ;; await_processor o.

(* ================================================================== *)
(** ** AgentExecutor *)

Definition agent_type : string := "product_manager".

Definition apology : string :=
  "I apologize, but I encountered an error processing your request: ".

(** executor.py, lines 49-60: draw the id and create the record. *)
Definition execute_create (request : Dict) : M string :=
  execution_id <- uuid4 ;;
  now <- utcnow ;;
  setitem execution_id
    (mkExecution execution_id PENDING request None None (Some now) None) ;;
  ret execution_id.

(** Lines 63-72, the [try] block up to the processor call: mark the
    record running, extract and validate the message. *)
Definition execute_head (execution_id : string) (request : Dict) : M Any :=
  getitem execution_id ;;
  mutate execution_id (set_status RUNNING) ;;
  let message := PyDict.get_or "message" (VStr "") request in
  if negb (truthy message) then raise (ValueError "Message is required")
  else ret message.

(** Lines 77-94, the [try] block after the processor call. *)
Definition execute_tail (execution_id response : string) : M Dict :=
  stamp <- utcnow ;;
  let result :=
    [ ("execution_id", VStr execution_id);
      ("response", VStr response);
      ("status", VStr "success");
      ("timestamp", VStr (isoformat stamp));
      ("agent_type", VStr agent_type) ] in
  getitem execution_id ;;
  now <- utcnow ;;
  mutate execution_id (set_completed result now) ;;
  ret result.

(** Lines 96-114, the [except Exception] handler. *)
Definition execute_except (execution_id : string) (e : exn) : M Dict :=
  let error_msg := "Execution failed: " ++ str e in
  getitem execution_id ;;
  now <- utcnow ;;
  mutate execution_id (set_failed error_msg now) ;;
  stamp <- utcnow ;;
  ret [ ("execution_id", VStr execution_id);
        ("response", VStr (apology ++ error_msg));
        ("status", VStr "error");
        ("timestamp", VStr (isoformat stamp));
        ("agent_type", VStr agent_type);
        ("error", VStr error_msg) ].

(** [AgentExecutor.execute], the processor answering [o]. *)
Definition execute (o : outcome) (request : Dict) : M Dict :=
  execution_id <- execute_create request ;;
  try_except
    (message <- execute_head execution_id request ;;
     response <- process_message o message ;;
     execute_tail execution_id response)
    (execute_except execution_id).

Definition is_terminal (s : ExecutionStatus) : bool :=
  match s with
  | COMPLETED | FAILED | CANCELLED => true
  | PENDING | RUNNING => false
  end.

Definition not_found (execution_id : string) : Dict :=
  [ ("execution_id", VStr execution_id);
    ("status", VStr "error");
    ("message", VStr "Execution not found") ].

(** [AgentExecutor.cancel]; it has no [await] inside and runs in one
    piece. *)
Definition cancel (execution_id : string) : M Dict :=
  known <- has_execution execution_id ;;
  if negb known then ret (not_found execution_id)
  else
    execution <- getitem execution_id ;;
    if existsb (status_eqb (status execution)) [COMPLETED; FAILED; CANCELLED]
    then ret [ ("execution_id", VStr execution_id);
               ("status", VStr "error");
               ("message", VStr ("Execution already " ++ value_of (status execution))) ]
    else
      now <- utcnow ;;
      mutate execution_id (set_cancelled now) ;;
      ret [ ("execution_id", VStr execution_id);
            ("status", VStr "cancelled");
            ("message", VStr "Execution cancelled successfully") ].

Definition opt_dict (x : option Dict) : Any :=
  match x with Some d => VDict d | None => VNone end.

Definition opt_str (x : option string) : Any :=
  match x with Some s => VStr s | None => VNone end.

(** [AgentExecutor.get_execution_status] *)
Definition get_execution_status (execution_id : string) : M Dict :=
  known <- has_execution execution_id ;;
  if negb known then ret (not_found execution_id)
  else
    execution <- getitem execution_id ;;
    ret [ ("execution_id", VStr execution_id);
          ("status", VStr (value_of (status execution)));
          ("start_time", isoformat_or_none (start_time execution));
          ("end_time", isoformat_or_none (end_time execution));
          ("result", opt_dict (result execution));
          ("error", opt_str (error execution)) ].

Definition summary (item : string * Execution) : Dict :=
  let '(execution_id, execution) := item in
  [ ("execution_id", VStr execution_id);
    ("status", VStr (value_of (status execution)));
    ("start_time", isoformat_or_none (start_time execution));
    ("end_time", isoformat_or_none (end_time execution)) ].

(** [AgentExecutor.list_executions] *)
Definition list_executions : M (list Dict) :=
  fun w => (inl (map summary (PyDict.items (executions w))), w).

(* ================================================================== *)
(** ** The event loop

    The server is one asyncio loop: a handler runs without interruption
    until it awaits.  [execute] awaits once, at the processor call
    (line 75); [cancel], [get_execution_status] and [list_executions]
    never do.  So an [execute] call is observed in two pieces, with
    other handlers possibly running in between. *)

(** From the call to the suspension at line 75; [Some payload] when the
    call already returned (the validation failed), [None] when it is
    now waiting for the processor. *)
Definition execute_begin (request : Dict) : M (string * option Dict) :=
  execution_id <- execute_create request ;;
  try_except
    (message <- execute_head execution_id request ;;
     call_processor message ;;
     ret (execution_id, None))
    (fun e => payload <- execute_except execution_id e ;;
              ret (execution_id, Some payload)).

(** From the processor's answer to the return. *)
Definition execute_resume (execution_id : string) (o : outcome) : M Dict :=
  try_except
    (response <- await_processor o ;;
     execute_tail execution_id response)
    (execute_except execution_id).

(** What the loop runs next.  An [execute] call appears either whole
    ([Execute]: the processor answers before anything else runs) or as
    [Execute_begin] followed, possibly much later, by the
    [Processor_done] of its id. *)
Inductive event : Type :=
| Execute (request : Dict) (o : outcome)
| Execute_begin (request : Dict)
| Processor_done (execution_id : string) (o : outcome)
| Cancel (execution_id : string)
| Get_execution_status (execution_id : string)
| List_executions.

(** The world together with the execute calls waiting at their await. *)
Record Loop : Type := mkLoop {
  world : World;
  suspended : list string
}.

(** One event; the value a handler returns does not influence the
    state and is dropped here. *)
Definition step (l : Loop) (ev : event) : Loop :=
  match ev with
  | Execute request o =>
      mkLoop (snd (execute o request (world l))) (suspended l)
  | Execute_begin request =>
      match execute_begin request (world l) with
      | (inl (execution_id, None), w) => mkLoop w (execution_id :: suspended l)
      | (_, w) => mkLoop w (suspended l)
      end
  | Processor_done execution_id o =>
      mkLoop (snd (execute_resume execution_id o (world l)))
             (remove string_dec execution_id (suspended l))
  | Cancel execution_id =>
      mkLoop (snd (cancel execution_id (world l))) (suspended l)
  | Get_execution_status execution_id =>
      mkLoop (snd (get_execution_status execution_id (world l))) (suspended l)
  | List_executions =>
      mkLoop (snd (list_executions (world l))) (suspended l)
  end.

(** What the environment guarantees: [uuid4] returns an identifier not
    in use, and only a suspended call can be resumed. *)
Definition enabled (l : Loop) (ev : event) : bool :=
  match ev with
  | Execute _ _ | Execute_begin _ =>
      negb (PyDict.mem (uuid_source (world l) 0) (executions (world l)))
  | Processor_done execution_id _ =>
      existsb (String.eqb execution_id) (suspended l)
  | Cancel _ | Get_execution_status _ | List_executions => true
  end.

(** A sequence of events, and whether the environment allows it. *)
Fixpoint run (l : Loop) (evs : list event) : Loop :=
  match evs with
  | [] => l
  | ev :: evs' => run (step l ev) evs'
  end.

Fixpoint valid (l : Loop) (evs : list event) : bool :=
  match evs with
  | [] => true
  | ev :: evs' => enabled l ev && valid (step l ev) evs'
  end.

(** The process at start-up: [AgentExecutor.__init__]. *)
Definition boot (ids : nat -> string) (clk : nat -> datetime) : Loop :=
  mkLoop (mkWorld [] ids clk []) [].

(** The four operations as whole calls. *)
Definition is_call (ev : event) : bool :=
  match ev with
  | Execute _ _ | Cancel _ | Get_execution_status _ | List_executions => true
  | Execute_begin _ | Processor_done _ _ => false
  end.

(** The events that start an [execute] call. *)
Definition counts_as_execute (ev : event) : bool :=
  match ev with
  | Execute _ _ | Execute_begin _ => true
  | _ => false
  end.

(* ================================================================== *)
(** ** HTTP facade *)

(** [A2AServer._status_endpoint]: status code and JSON body. *)
Definition _status_endpoint (execution_id : string) : M (nat * Dict) :=
  try_except
    (result <- get_execution_status execution_id ;;
     let status_code :=
       if negb (eq_str (PyDict.get_or "status" VNone result) "error")
       then 200 else 404 in
     ret (status_code, result))
    (fun e => ret (500, [ ("error", VStr ("Status retrieval failed: " ++ str e)) ])).

(** [A2AServer._execute_endpoint] from line 144 on, for a body that
    [await request.json()] returned as a JSON object;
    [Full._execute_endpoint] below includes the parsing step. *)
Definition _execute_endpoint (o : outcome) (body : Dict) : M (nat * Dict) :=
  try_except
    (if negb (PyDict.mem "message" body)
     then ret (400, [ ("error", VStr "Message is required") ])
     else result <- execute o body ;; ret (200, result))
    (fun e => ret (500, [ ("error", VStr ("Execution failed: " ++ str e)) ])).

(** The pydantic models of chat.py. *)
Module ChatRequest.
Record t : Type := mk {
  message : string;
  session_id : option string;
  conversation_id : option string;
  metadata : option Dict
}.
End ChatRequest.

Module ChatResponse.
Record t : Type := mk {
  response : Any;
  execution_id : Any;
  status : Any;
  metadata : Any
}.
End ChatResponse.

(** [raise HTTPException(status_code, detail)] *)
Record HTTPException : Type := mkHTTPException {
  status_code : nat;
  detail : string
}.

(** The request handed to the executor by the chat endpoint
    (chat.py, lines 61-65). *)
Definition execution_request (request : ChatRequest.t) : Dict :=
  [ ("message", VStr (ChatRequest.message request));
    ("conversation_id",
       py_or (opt_str (ChatRequest.conversation_id request))
             (opt_str (ChatRequest.session_id request)));
    ("metadata",
       py_or (opt_dict (ChatRequest.metadata request)) (VDict [])) ].

(** [chat_with_agent], the handler of POST /chat/message. *)
Definition chat_with_agent (o : outcome) (request : ChatRequest.t)
  : World -> (ChatResponse.t + HTTPException) * World :=
  fun w =>
    match execute o (execution_request request) w with
    | (inl result, w') =>
        let success := eq_str (PyDict.get_or "status" VNone result) "success" in
        let response_text :=
          if success then PyDict.get_or "response" (VStr "") result
          else PyDict.get_or "error" (VStr "An error occurred during processing") result in
        (inl (ChatResponse.mk
                response_text
                (PyDict.get_or "execution_id" (VStr "") result)
                (if success then VStr "completed"
                 else PyDict.get_or "status" (VStr "unknown") result)
                (PyDict.get_or "metadata" (VDict []) result)),
         w')
    | (inr e, w') =>
        (inr (mkHTTPException 500 ("Chat processing failed: " ++ str e)), w')
    end.

(* ================================================================== *)
(** ** Vocabulary of the statements

    Names for the worlds, records and payloads the lemmas below speak
    about. *)

(** The environment's answers from the [k]-th on. *)
Definition later {A} (k : nat) (f : nat -> A) : nat -> A := fun n => f (k + n).

(** The record [execute] creates (lines 52-60). *)
Definition new_execution (w : World) (request : Dict) : Execution :=
  mkExecution (uuid_source w 0) PENDING request None None (Some (clock w 0)) None.

(** The payloads [execute] returns. *)
Definition success_payload (eid response : string) (stamp : datetime) : Dict :=
  [ ("execution_id", VStr eid);
    ("response", VStr response);
    ("status", VStr "success");
    ("timestamp", VStr (isoformat stamp));
    ("agent_type", VStr agent_type) ].

Definition error_payload (eid error_msg : string) (stamp : datetime) : Dict :=
  [ ("execution_id", VStr eid);
    ("response", VStr (apology ++ error_msg));
    ("status", VStr "error");
    ("timestamp", VStr (isoformat stamp));
    ("agent_type", VStr agent_type);
    ("error", VStr error_msg) ].

(** The new record once line 66 has run. *)
Definition running_execution (w : World) (request : Dict) : Execution :=
  set_status RUNNING (new_execution w request).

(** The world in which [execute] reaches its [await] or its handler. *)
Definition entered (w : World) (request : Dict) (calls : list Any) : World :=
  mkWorld (PyDict.set (uuid_source w 0) (running_execution w request) (executions w))
          (later 1 (uuid_source w)) (later 1 (clock w)) calls.

(** What the processor is taken to answer: nothing is asked of it when
    the validation fails, and the handler then sees the [ValueError]. *)
Definition effective (o : outcome) (request : Dict) : outcome :=
  if truthy (PyDict.get_or "message" (VStr "") request) then o
  else Raised (ValueError "Message is required").

(** The processor log once [execute] has returned. *)
Definition calls_after (w : World) (request : Dict) : list Any :=
  let message := PyDict.get_or "message" (VStr "") request in
  if truthy message then (processor_calls w ++ [message])%list
  else processor_calls w.

(** The results of [cancel] and of [get_execution_status]. *)
Definition already (eid : string) (s : ExecutionStatus) : Dict :=
  [ ("execution_id", VStr eid);
    ("status", VStr "error");
    ("message", VStr ("Execution already " ++ value_of s)) ].

Definition cancelled_ok (eid : string) : Dict :=
  [ ("execution_id", VStr eid);
    ("status", VStr "cancelled");
    ("message", VStr "Execution cancelled successfully") ].

Definition snapshot (eid : string) (r : Execution) : Dict :=
  [ ("execution_id", VStr eid);
    ("status", VStr (value_of (status r)));
    ("start_time", isoformat_or_none (start_time r));
    ("end_time", isoformat_or_none (end_time r));
    ("result", opt_dict (result r));
    ("error", opt_str (error r)) ].

(** The request fails validation, or the processor raises. *)
Definition fails (o : outcome) (request : Dict) : bool :=
  negb (truthy (PyDict.get_or "message" (VStr "") request)) ||
  match o with Raised _ => true | Returned _ => false end.

(** Which optional fields a record of each status carries. *)
Definition well_formed (r : Execution) : bool :=
  match status r, result r, error r, end_time r with
  | PENDING, None, None, None
  | RUNNING, None, None, None
  | COMPLETED, Some _, None, Some _
  | CANCELLED, None, None, Some _
  | FAILED, None, Some _, Some _ => true
  | _, _, _, _ => false
  end.

(** A record whose [execute] call is still waiting for the processor:
    no result, no error, and either still Running or Cancelled in the
    meantime. *)
Definition in_flight (r : Execution) : Prop :=
  result r = None /\ error r = None /\ (status r = RUNNING \/ status r = CANCELLED).

(** What holds of the store and of the suspended calls in every
    reachable state. *)
Definition loop_ok (l : Loop) : Prop :=
  (forall eid r, PyDict.get eid (executions (world l)) = Some r -> well_formed r = true) /\
  (forall eid, In eid (suspended l) ->
     exists r, PyDict.get eid (executions (world l)) = Some r /\ in_flight r).

(** A sample environment for the worked runs below. *)
Definition sample_ids (n : nat) : string := "exec-" ++ digits n.
Definition sample_clock (n : nat) : datetime := mkDatetime 2025 1 1 12 0 n 0.

(** One call answered, one rejected, one cancelled while it waits. *)
Definition sample_trace : list event :=
  [ Execute [("message", VStr "hello")] (Returned "world");
    Execute [("message", VStr "")] (Returned "unused");
    Execute_begin [("message", VStr "slow")];
    Get_execution_status "exec-2";
    Cancel "exec-2";
    List_executions ].

(** Two records of the store after [sample_trace]. *)
Definition sample_completed : Execution :=
  mkExecution "exec-0" COMPLETED [("message", VStr "hello")]
    (Some [ ("execution_id", VStr "exec-0"); ("response", VStr "world");
            ("status", VStr "success"); ("timestamp", VStr "2025-01-01T12:00:01");
            ("agent_type", VStr "product_manager") ])
    None (Some (sample_clock 0)) (Some (sample_clock 2)).

Definition sample_cancelled : Execution :=
  mkExecution "exec-2" CANCELLED [("message", VStr "slow")]
    None None (Some (sample_clock 6)) (Some (sample_clock 7)).

(** The events that belong to operations other than the [execute] call
    that created record [eid]. *)
Definition foreign_to (eid : string) (ev : event) : bool :=
  match ev with
  | Processor_done eid' _ => negb (String.eqb eid' eid)
  | _ => true
  end.

(** An execute call is cancelled while it waits for the processor; the
    processor then answers. *)
Definition race_trace : list event :=
  [ Execute_begin [("message", VStr "slow")];
    Cancel "exec-0";
    Processor_done "exec-0" (Returned "late") ].

(* ================================================================== *)
(** ** The rest of the HTTP facade (a2a_server.py) *)

(** [A2AServer._cancel_endpoint] *)
Definition _cancel_endpoint (execution_id : string) : M (nat * Dict) :=
  try_except
    (result <- cancel execution_id ;;
     let status_code :=
       if negb (eq_str (PyDict.get_or "status" VNone result) "error")
       then 200 else 400 in
     ret (status_code, result))
    (fun e => ret (500, [ ("error", VStr ("Cancel failed: " ++ str e)) ])).

(** [A2AServer._list_executions_endpoint] *)
Definition _list_executions_endpoint : M (nat * Dict) :=
  try_except
    (result <- list_executions ;;
     ret (200, [ ("executions", VList (map VDict result)) ]))
    (fun e => ret (500, [ ("error", VStr ("Listing executions failed: " ++ str e)) ])).

(* ================================================================== *)
(** ** The rest of the chat router (chat.py)

    A handler returns its JSON body or raises an [HTTPException]; the
    clause [except HTTPException: raise] lets the 404 and the 400
    through, any other exception becomes a 500. *)

(** [get_chat_status], GET /chat/status/{execution_id} *)
Definition get_chat_status (execution_id : string)
  : World -> (Dict + HTTPException) * World :=
  fun w =>
    match get_execution_status execution_id w with
    | (inl result, w') =>
        if eq_str (PyDict.get_or "status" VNone result) "error"
        then (inr (mkHTTPException 404 "Execution not found"), w')
        else (inl result, w')
    | (inr e, w') =>
        (inr (mkHTTPException 500 ("Status retrieval failed: " ++ str e)), w')
    end.

(** The [detail] handed to [HTTPException]: [cancel] only ever stores
    string literals under "message". *)
Definition detail_text (v : Any) : string :=
  match v with VStr s => s | _ => "Cancellation failed" end.

(** [cancel_chat_execution], POST /chat/cancel/{execution_id} *)
Definition cancel_chat_execution (execution_id : string)
  : World -> (Dict + HTTPException) * World :=
  fun w =>
    match cancel execution_id w with
    | (inl result, w') =>
        if eq_str (PyDict.get_or "status" VNone result) "error"
        then (inr (mkHTTPException 400
                     (detail_text
                        (PyDict.get_or "message" (VStr "Cancellation failed") result))),
              w')
        else (inl result, w')
    | (inr e, w') =>
        (inr (mkHTTPException 500 ("Cancellation failed: " ++ str e)), w')
    end.

(** [list_chat_executions], GET /chat/executions *)
Definition list_chat_executions : World -> (Dict + HTTPException) * World :=
  fun w =>
    match list_executions w with
    | (inl executions, w') =>
        (inl [ ("executions", VList (map VDict executions)) ], w')
    | (inr e, w') =>
        (inr (mkHTTPException 500 ("Listing executions failed: " ++ str e)), w')
    end.

(* ================================================================== *)
(** ** The message processor (product_management_agent.py)

    [ProductManagementAgent.process_message] wraps everything it does
    in [try ... except Exception]; what the SDK does inside is the
    environment's choice. *)

Module ProductManagementAgent.

(** A response message of the agent: its [content] attribute ([None]
    when absent or null) and its own [str()]. *)
Record ChatMessage : Type := mkChatMessage {
  content : option string;
  rendered : string
}.

(** What happens inside the [try] block (lines 194-257): one of its
    statements raises (the tracing calls, [len(message)] on a message
    that has no length, the agent), or the agent's responses are
    collected and nothing raises. *)
Inductive agent_run : Type :=
| Run_raised (e : exn)
| Run_yielded (response_messages : list ChatMessage).

(** Lines 233-267: the text [process_message] returns. *)
Definition process_message (run : agent_run) : string :=
  match run with
  | Run_yielded response_messages =>
      match rev response_messages with
      | last_response :: _ =>
          match content last_response with
          | Some c => if negb (String.eqb c "") then c else rendered last_response
          | None => rendered last_response
          end
      | [] => "No response generated from the agent system."
      end
  | Run_raised e =>
      "I apologize, but I encountered an error while processing your request: "
        ++ str e ++ ". Please try again."
  end.

End ProductManagementAgent.

(* ================================================================== *)
(** ** Environment variables (utils/env_utils.py) *)

Module EnvUtils.

Definition Env : Type := PyDict.t (option string).

(** [load_env_vars], [getenv] standing for [os.getenv]. *)
Definition load_env_vars (getenv : string -> option string) : Env :=
  [ ("interior_designer", getenv "interior_designer");
    ("customer_loyalty", getenv "customer_loyalty");
    ("inventory_agent", getenv "inventory_agent");
    ("cora", getenv "cora");
    ("phi_4_endpoint", getenv "phi_4_endpoint");
    ("phi_4_deployment", getenv "phi_4_deployment");
    ("phi_4_api_version", getenv "phi_4_api_version");
    ("phi_4_api_key", getenv "phi_4_api_key");
    ("gpt_endpoint", getenv "gpt_endpoint");
    ("gpt_deployment", getenv "gpt_deployment");
    ("gpt_api_key", getenv "gpt_api_key");
    ("gpt_api_version", getenv "gpt_api_version");
    ("AZURE_OPENAI_ENDPOINT", getenv "AZURE_OPENAI_ENDPOINT");
    ("AZURE_OPENAI_KEY", getenv "AZURE_OPENAI_KEY");
    ("AZURE_OPENAI_API_VERSION", getenv "AZURE_OPENAI_API_VERSION") ].

Definition required_vars : list string :=
  [ "phi_4_endpoint"; "phi_4_api_key"; "phi_4_api_version"; "phi_4_deployment" ].

(** [not env_vars.get(var)]: the key is absent, or its value is [None]
    or the empty string. *)
Definition unset (env_vars : Env) (var : string) : bool :=
  match PyDict.get var env_vars with
  | Some (Some s) => String.eqb s ""
  | Some None | None => true
  end.

(** [validate_env_vars] *)
Definition validate_env_vars (env_vars : Env) : Env + exn :=
  let missing_vars := filter (unset env_vars) required_vars in
  match missing_vars with
  | _ :: _ =>
      inr (ValueError ("Missing required environment variables: "
                         ++ String.concat ", " missing_vars))
  | [] =>
      inl (fold_left
             (fun validated_vars item =>
                let '(key, value) := item in
                if existsb (String.eqb key) required_vars
                then PyDict.set key value validated_vars
                else PyDict.set key value validated_vars)
             (PyDict.items env_vars) [])
  end.

End EnvUtils.

(* ================================================================== *)
(** ** Vocabulary of the further statements *)

(** The messages handed to the processor by the execute calls of a
    trace, in order. *)
Definition message_sent (ev : event) : list Any :=
  match ev with
  | Execute request _ | Execute_begin request =>
      let message := PyDict.get_or "message" (VStr "") request in
      if truthy message then [message] else []
  | _ => []
  end.

(** The [execution_id] field of each summary. *)
Definition listed_ids (summaries : list Dict) : list Any :=
  map (PyDict.get_or "execution_id" VNone) summaries.

(** A sample environment for [validate_env_vars]. *)
Definition sample_getenv (name : string) : option string :=
  if String.prefix "phi_4_" name then Some "set" else None.

(* ================================================================== *)
(** ** Exceptions outside [Exception]

    The clause [except Exception] (executor.py line 96,
    product_management_agent.py line 259, a2a_server.py line 156)
    catches the subclasses of [Exception] and lets every other
    [BaseException] pass.  The definitions above describe code in
    which only [Exception]s are raised.  This module widens them: the
    same pieces of [execute], in a monad whose computations may also
    raise what [except Exception] does not catch. *)

Module Full.

(** The [BaseException] subclasses outside [Exception]. *)
Inductive base_exception : Type :=
| CancelledError        (* asyncio.CancelledError: the task was cancelled *)
| KeyboardInterrupt
| SystemExit
| GeneratorExit.

Inductive raised : Type :=
| Exc (e : exn)
| Base (b : base_exception).

Definition P (A : Type) : Type := World -> (A + raised) * World.

Definition ret {A} (a : A) : P A := fun w => (inl a, w).

Definition raise {A} (r : raised) : P A := fun w => (inr r, w).

Definition bind {A B} (c : P A) (k : A -> P B) : P B :=
  fun w =>
    match c w with
    | (inl a, w') => k a w'
    | (inr r, w') => (inr r, w')
    end.

(** Code of the narrower monad, run here. *)
Definition lift {A} (c : M A) : P A :=
  fun w =>
    match c w with
    | (inl a, w') => (inl a, w')
    | (inr e, w') => (inr (Exc e), w')
    end.

(** [try: body  except Exception as e: handler(e)] *)
Definition try_except {A} (body : P A) (handler : exn -> P A) : P A :=
  fun w =>
    match body w with
    | (inl a, w') => (inl a, w')
    | (inr (Exc e), w') => handler e w'
    | (inr (Base b), w') => (inr (Base b), w')
    end.

Notation "x <~ c1 ;; c2" := (bind c1 (fun x => c2))
  (at level 61, c1 at next level, right associativity).

(** What one [await self.product_manager.process_message(message)]
    evaluates to. *)
Inductive behaviour : Type :=
| Answers (response : string)
| Throws (r : raised).

Definition behaviour_of (o : outcome) : behaviour :=
  match o with
  | Returned response => Answers response
  | Raised e => Throws (Exc e)
  end.

Definition answer (b : behaviour) : P string :=
  match b with
  | Answers response => ret response
  | Throws r => raise r
  end.

(** [AgentExecutor.execute] (executor.py, lines 39-114), [processor]
    being what the awaited call does. *)
Definition execute_by (processor : P string) (request : Dict) : P Dict :=
  execution_id <~ lift (execute_create request) ;;
  try_except
    (message <~ lift (execute_head execution_id request) ;;
     _ <~ lift (call_processor message) ;;
     response <~ processor ;;
     lift (execute_tail execution_id response))
    (fun e => lift (execute_except execution_id e)).

Definition execute (b : behaviour) (request : Dict) : P Dict :=
  execute_by (answer b) request.

(** What [await request.json()] gives in [_execute_endpoint]: the body
    is not JSON and the call raises, or it is a JSON object.  A body
    that is JSON but not an object (a number, a string, an array) is
    not covered: the record [execute] would create for it cannot hold
    such a request. *)
Inductive json_body : Type :=
| Malformed (e : exn)
| Json_object (body : Dict).

(** [A2AServer._execute_endpoint] (a2a_server.py, lines 139-161). *)
Definition _execute_endpoint (b : behaviour) (parsed : json_body) : P (nat * Dict) :=
  try_except
    (body <~ match parsed with
             | Malformed e => raise (Exc e)
             | Json_object body => ret body
             end ;;
     if negb (PyDict.mem "message" body)
     then ret (400, [ ("error", VStr "Message is required") ])
     else result <~ execute b body ;; ret (200, result))
    (fun e => ret (500, [ ("error", VStr ("Execution failed: " ++ str e)) ])).

(** What the [try] block of [ProductManagementAgent.process_message]
    (lines 194-257) does: the agent's responses are collected, or one
    of its statements raises. *)
Inductive agent_trial : Type :=
| Yields (response_messages : list ProductManagementAgent.ChatMessage)
| Fails (r : raised).

(** [ProductManagementAgent.process_message] (lines 191-267). *)
Definition process_message (t : agent_trial) : P string :=
  try_except
    match t with
    | Yields response_messages =>
        ret (ProductManagementAgent.process_message
               (ProductManagementAgent.Run_yielded response_messages))
    | Fails r => raise r
    end
    (fun e =>
       ret (ProductManagementAgent.process_message (ProductManagementAgent.Run_raised e))).

End Full.

(* ================================================================== *)
(** * Properties *)

(** ** Dictionaries *)

Module PyDictFacts.

Import PyDict.

Section Facts.
Context {V : Type}.
Implicit Types (d : PyDict.t V) (v : V) (k : string).

Lemma get_set_same k v d : get k (set k v d) = Some v.
Proof.
  induction d as [|[k' v'] d IH]; simpl.
  - now rewrite String.eqb_refl.
  - destruct (String.eqb k k') eqn:E; simpl; rewrite ?E, ?String.eqb_refl; auto.
Qed.

Lemma get_set_other k k' v d : k <> k' -> get k' (set k v d) = get k' d.
Proof.
  intros Hne. induction d as [|[k0 v0] d IH]; simpl.
  - destruct (String.eqb k' k) eqn:E; auto.
    apply String.eqb_eq in E. congruence.
  - destruct (String.eqb k k0) eqn:E; simpl.
    + apply String.eqb_eq in E. subst k0.
      destruct (String.eqb k' k) eqn:E'; auto.
      apply String.eqb_eq in E'. congruence.
    + destruct (String.eqb k' k0); auto.
Qed.

Lemma set_set_same k v v' d : set k v (set k v' d) = set k v d.
Proof.
  induction d as [|[k0 v0] d IH]; simpl.
  - now rewrite String.eqb_refl.
  - destruct (String.eqb k k0) eqn:E; simpl.
    + now rewrite String.eqb_refl.
    + now rewrite E, IH.
Qed.

(** A new key makes the dictionary one longer, an old one does not. *)
Lemma length_set_new k v d : get k d = None -> length (set k v d) = S (length d).
Proof.
  induction d as [|[k' v'] d IH]; simpl; auto.
  destruct (String.eqb k k'); [discriminate|].
  intros H. simpl. now rewrite IH.
Qed.

Lemma length_set_old k v d : get k d <> None -> length (set k v d) = length d.
Proof.
  induction d as [|[k' v'] d IH]; simpl; [congruence|].
  destruct (String.eqb k k'); simpl; auto.
Qed.

Lemma mem_false_get k d : mem k d = false -> get k d = None.
Proof. unfold mem. destruct (get k d); [discriminate|auto]. Qed.

Lemma get_set_cases k v d k' v' :
  get k' (set k v d) = Some v' ->
  (k' = k /\ v' = v) \/ (k' <> k /\ get k' d = Some v').
Proof.
  destruct (string_dec k' k) as [->|Hne].
  - rewrite get_set_same. intros [= ->]. now left.
  - rewrite get_set_other by congruence. now right.
Qed.

End Facts.

End PyDictFacts.

(* ================================================================== *)
(** ** What each piece of code does to the world *)

Lemma execute_create_run request w :
  execute_create request w =
  (inl (uuid_source w 0),
   mkWorld (PyDict.set (uuid_source w 0) (new_execution w request) (executions w))
           (later 1 (uuid_source w)) (later 1 (clock w)) (processor_calls w)).
Proof. reflexivity. Qed.

Lemma execute_head_run eid request w r :
  PyDict.get eid (executions w) = Some r ->
  execute_head eid request w =
  (if truthy (PyDict.get_or "message" (VStr "") request)
   then inl (PyDict.get_or "message" (VStr "") request)
   else inr (ValueError "Message is required"),
   with_executions (PyDict.set eid (set_status RUNNING r) (executions w)) w).
Proof.
  intros H. unfold execute_head, bind, getitem, mutate. rewrite H. simpl.
  rewrite H. destruct (truthy _); reflexivity.
Qed.

Lemma execute_tail_run eid response w r :
  PyDict.get eid (executions w) = Some r ->
  execute_tail eid response w =
  (inl (success_payload eid response (clock w 0)),
   mkWorld (PyDict.set eid
              (set_completed (success_payload eid response (clock w 0)) (clock w 1) r)
              (executions w))
           (uuid_source w) (later 2 (clock w)) (processor_calls w)).
Proof.
  intros H. unfold execute_tail, bind, getitem, mutate, utcnow. simpl.
  rewrite H. simpl. rewrite H. reflexivity.
Qed.

Lemma execute_except_run eid e w r :
  PyDict.get eid (executions w) = Some r ->
  execute_except eid e w =
  (inl (error_payload eid ("Execution failed: " ++ str e) (clock w 1)),
   mkWorld (PyDict.set eid
              (set_failed ("Execution failed: " ++ str e) (clock w 0) r)
              (executions w))
           (uuid_source w) (later 2 (clock w)) (processor_calls w)).
Proof.
  intros H. unfold execute_except, bind, getitem, mutate, utcnow.
  rewrite H. simpl. rewrite H. reflexivity.
Qed.

(** When the record is missing, both the tail and the handler raise
    [KeyError] and leave the store alone. *)
Lemma execute_resume_missing eid o w :
  PyDict.get eid (executions w) = None ->
  executions (snd (execute_resume eid o w)) = executions w.
Proof.
  intros H. unfold execute_resume, try_except, bind, await_processor.
  destruct o as [response|e]; simpl.
  - unfold execute_tail, execute_except, bind, getitem, utcnow. simpl.
    rewrite H. simpl. rewrite H. reflexivity.
  - unfold raise, execute_except, bind, getitem. rewrite H. reflexivity.
Qed.

Lemma execute_resume_run eid o w r :
  PyDict.get eid (executions w) = Some r ->
  execute_resume eid o w =
  match o with
  | Returned response =>
      (inl (success_payload eid response (clock w 0)),
       mkWorld (PyDict.set eid
                  (set_completed (success_payload eid response (clock w 0)) (clock w 1) r)
                  (executions w))
               (uuid_source w) (later 2 (clock w)) (processor_calls w))
  | Raised e =>
      (inl (error_payload eid ("Execution failed: " ++ str e) (clock w 1)),
       mkWorld (PyDict.set eid
                  (set_failed ("Execution failed: " ++ str e) (clock w 0) r)
                  (executions w))
               (uuid_source w) (later 2 (clock w)) (processor_calls w))
  end.
Proof.
  intros H. unfold execute_resume, try_except, bind, await_processor.
  destruct o as [response|e].
  - unfold ret. rewrite (execute_tail_run _ _ _ _ H). reflexivity.
  - unfold raise. rewrite (execute_except_run _ _ _ _ H). reflexivity.
Qed.

Lemma entered_get w request calls :
  PyDict.get (uuid_source w 0) (executions (entered w request calls)) =
  Some (running_execution w request).
Proof. apply PyDictFacts.get_set_same. Qed.

Lemma execute_begin_run request w :
  let message := PyDict.get_or "message" (VStr "") request in
  execute_begin request w =
  if truthy message
  then (inl (uuid_source w 0, None),
        entered w request (processor_calls w ++ [message]))
  else
    match execute_except (uuid_source w 0) (ValueError "Message is required")
            (entered w request (processor_calls w)) with
    | (inl payload, w') => (inl (uuid_source w 0, Some payload), w')
    | (inr e, w') => (inr e, w')
    end.
Proof.
  intros message. unfold execute_begin, bind at 1. rewrite execute_create_run.
  unfold try_except, bind at 1.
  rewrite (execute_head_run _ _ _ (new_execution w request)) by apply PyDictFacts.get_set_same.
  fold message. simpl executions. rewrite PyDictFacts.set_set_same.
  destruct (truthy message); reflexivity.
Qed.

(** [execute] is [execute_begin] followed at once by [execute_resume]. *)
Lemma execute_split o request w :
  execute o request w =
  match execute_begin request w with
  | (inl (eid, None), w') => execute_resume eid o w'
  | (inl (_, Some payload), w') => (inl payload, w')
  | (inr e, w') => (inr e, w')
  end.
Proof.
  rewrite execute_begin_run.
  unfold execute, bind at 1. rewrite execute_create_run.
  unfold try_except, bind at 1.
  rewrite (execute_head_run _ _ _ (new_execution w request)) by apply PyDictFacts.get_set_same.
  simpl executions. rewrite PyDictFacts.set_set_same.
  destruct (truthy (PyDict.get_or "message" (VStr "") request)) eqn:Ht.
  - unfold execute_resume, try_except, process_message, bind, call_processor.
    reflexivity.
  - rewrite (execute_except_run _ _ _ (running_execution w request))
      by apply PyDictFacts.get_set_same.
    rewrite (execute_except_run _ _ _ (running_execution w request))
      by apply entered_get.
    reflexivity.
Qed.

(** [execute] in closed form. *)
Lemma execute_run o request w :
  let eid := uuid_source w 0 in
  execute o request w =
  match effective o request with
  | Returned response =>
      let payload := success_payload eid response (clock w 1) in
      (inl payload,
       mkWorld (PyDict.set eid
                  (set_completed payload (clock w 2) (running_execution w request))
                  (executions w))
               (later 1 (uuid_source w)) (later 3 (clock w)) (calls_after w request))
  | Raised e =>
      let error_msg := "Execution failed: " ++ str e in
      (inl (error_payload eid error_msg (clock w 2)),
       mkWorld (PyDict.set eid
                  (set_failed error_msg (clock w 1) (running_execution w request))
                  (executions w))
               (later 1 (uuid_source w)) (later 3 (clock w)) (calls_after w request))
  end.
Proof.
  intros eid. rewrite execute_split, execute_begin_run.
  unfold effective, calls_after.
  destruct (truthy (PyDict.get_or "message" (VStr "") request)).
  - rewrite (execute_resume_run _ _ _ _ (entered_get _ _ _)).
    destruct o; simpl executions; rewrite PyDictFacts.set_set_same; reflexivity.
  - rewrite (execute_except_run _ _ _ _ (entered_get _ _ _)).
    simpl executions. rewrite PyDictFacts.set_set_same. reflexivity.
Qed.

(** [cancel], in its three cases. *)
Lemma listed_terminal s :
  existsb (status_eqb s) [COMPLETED; FAILED; CANCELLED] = is_terminal s.
Proof. destruct s; reflexivity. Qed.

Lemma cancel_unknown eid w :
  PyDict.get eid (executions w) = None ->
  cancel eid w = (inl (not_found eid), w).
Proof.
  intros H. unfold cancel, bind, has_execution, PyDict.mem. rewrite H. reflexivity.
Qed.

Lemma cancel_terminal eid w r :
  PyDict.get eid (executions w) = Some r -> is_terminal (status r) = true ->
  cancel eid w = (inl (already eid (status r)), w).
Proof.
  intros H Ht. unfold cancel, bind, has_execution, getitem, PyDict.mem.
  rewrite H. change (negb true) with false. cbv beta iota. rewrite H. cbv beta iota.
  rewrite listed_terminal, Ht. reflexivity.
Qed.

Lemma cancel_live eid w r :
  PyDict.get eid (executions w) = Some r -> is_terminal (status r) = false ->
  cancel eid w =
  (inl (cancelled_ok eid),
   mkWorld (PyDict.set eid (set_cancelled (clock w 0) r) (executions w))
           (uuid_source w) (later 1 (clock w)) (processor_calls w)).
Proof.
  intros H Ht. unfold cancel, bind, has_execution, getitem, PyDict.mem.
  rewrite H. change (negb true) with false. cbv beta iota. rewrite H. cbv beta iota.
  rewrite listed_terminal, Ht. unfold utcnow, mutate. simpl. rewrite H. reflexivity.
Qed.

Lemma get_execution_status_run eid w :
  get_execution_status eid w =
  (inl match PyDict.get eid (executions w) with
       | Some r => snapshot eid r
       | None => not_found eid
       end, w).
Proof.
  unfold get_execution_status, bind, has_execution, getitem, PyDict.mem.
  destruct (PyDict.get eid (executions w)) eqn:H; simpl; [rewrite H|]; reflexivity.
Qed.

(* ================================================================== *)
(** ** Strings *)

Lemma prefix_refl s : String.prefix s s = true.
Proof.
  induction s as [|c s IH]; simpl; auto.
  destruct (ascii_dec c c); [assumption|congruence].
Qed.

Lemma contains_prefix needle hay :
  String.prefix needle hay = true -> contains needle hay = true.
Proof.
  intros H. destruct hay; unfold contains; fold contains; rewrite H; reflexivity.
Qed.

Lemma contains_suffix needle pre : contains needle (pre ++ needle) = true.
Proof.
  induction pre as [|c pre IH].
  - apply contains_prefix, prefix_refl.
  - change (String.prefix needle (String c (pre ++ needle)) ||
            contains needle (pre ++ needle) = true).
    rewrite IH. apply orb_true_r.
Qed.

(* ================================================================== *)
(** ** [execute] *)

Lemma effective_fails o request :
  fails o request = true -> exists e, effective o request = Raised e.
Proof.
  unfold fails, effective.
  destruct (truthy _); simpl; [|eauto].
  destruct o; [discriminate|eauto].
Qed.

Lemma effective_succeeds o request :
  fails o request = false -> exists response, o = Returned response /\
    effective o request = Returned response.
Proof.
  unfold fails, effective.
  destruct (truthy _); simpl; [|discriminate].
  destruct o; [eauto|discriminate].
Qed.

(** A processor that returns a text or raises an [Exception]:
    [execute] returns a payload and raises nothing.  When the request
    fails validation or the processor raises, the record stored under
    the returned id is Failed, its error is the message
    ["Execution failed: ..."], and the payload has status ["error"]
    and a response text containing that message; otherwise the payload
    has status ["success"]. *)
Lemma execute_always_returns (o : outcome) (request : Dict) (w : World) :
  exists payload w',
    execute o request w = (inl payload, w') /\
    PyDict.get "execution_id" payload = Some (VStr (uuid_source w 0)) /\
    if fails o request then
      exists r error_msg text,
        PyDict.get (uuid_source w 0) (executions w') = Some r /\
        status r = FAILED /\
        error r = Some error_msg /\
        error_msg <> "" /\
        PyDict.get "status" payload = Some (VStr "error") /\
        PyDict.get "response" payload = Some (VStr text) /\
        contains error_msg text = true
    else PyDict.get "status" payload = Some (VStr "success").
Proof.
  rewrite execute_run.
  destruct (fails o request) eqn:Hf.
  - destruct (effective_fails _ _ Hf) as [e ->].
    do 2 eexists. split; [reflexivity|]. split; [reflexivity|].
    exists (set_failed ("Execution failed: " ++ str e) (clock w 1)
              (running_execution w request)).
    exists ("Execution failed: " ++ str e), (apology ++ "Execution failed: " ++ str e).
    repeat split.
    + simpl executions. apply PyDictFacts.get_set_same.
    + discriminate.
    + apply contains_suffix.
  - destruct (effective_succeeds _ _ Hf) as [response [-> ->]].
    do 2 eexists. repeat split.
Qed.

(** C5. A request whose message is a non-empty string, answered by the
    processor with the text [r]: [execute] returns a payload with
    exactly the keys execution_id, response, status, timestamp and
    agent_type, where response is [r], status is ["success"] and
    agent_type is ["product_manager"]; the record stored under that
    execution id is Completed and its result is that payload. *)
Theorem execute_success (request : Dict) (m r : string) (w : World) :
  PyDict.get "message" request = Some (VStr m) ->
  m <> "" ->
  exists payload w' rec,
    execute (Returned r) request w = (inl payload, w') /\
    PyDict.keys payload =
      ["execution_id"; "response"; "status"; "timestamp"; "agent_type"] /\
    PyDict.get "execution_id" payload = Some (VStr (uuid_source w 0)) /\
    PyDict.get "response" payload = Some (VStr r) /\
    PyDict.get "status" payload = Some (VStr "success") /\
    PyDict.get "agent_type" payload = Some (VStr "product_manager") /\
    PyDict.get (uuid_source w 0) (executions w') = Some rec /\
    status rec = COMPLETED /\
    result rec = Some payload /\
    processor_calls w' = (processor_calls w ++ [VStr m])%list.
Proof.
  intros Hm Hne. rewrite execute_run.
  unfold effective, calls_after, PyDict.get_or. rewrite Hm. simpl truthy.
  apply String.eqb_neq in Hne. rewrite Hne. simpl negb. cbv iota.
  do 3 eexists. split; [reflexivity|].
  repeat split; simpl executions; [apply PyDictFacts.get_set_same|reflexivity..].
Qed.

Lemma execute_success_witness :
  PyDict.get "message" [("message", VStr "hello")] = Some (VStr "hello") /\
  "hello" <> "" /\
  exists payload w' rec,
    execute (Returned "world") [("message", VStr "hello")]
      (world (boot sample_ids sample_clock)) = (inl payload, w') /\
    PyDict.keys payload =
      ["execution_id"; "response"; "status"; "timestamp"; "agent_type"] /\
    PyDict.get "execution_id" payload = Some (VStr "exec-0") /\
    PyDict.get "response" payload = Some (VStr "world") /\
    PyDict.get "status" payload = Some (VStr "success") /\
    PyDict.get "agent_type" payload = Some (VStr "product_manager") /\
    PyDict.get "exec-0" (executions w') = Some rec /\
    status rec = COMPLETED /\
    result rec = Some payload /\
    processor_calls w' = [VStr "hello"].
Proof.
  split; [reflexivity|]. split; [discriminate|].
  apply (execute_success [("message", VStr "hello")] "hello" "world"
           (world (boot sample_ids sample_clock)));
    [reflexivity|discriminate].
Defined.

(** C6. A request whose message is missing or is the empty string:
    [execute] returns a payload with status ["error"], the record
    stored under the returned execution id is Failed, its error
    message mentions "required", and the processor was not called. *)
Theorem execute_rejects_empty_message (o : outcome) (request : Dict) (w : World) :
  PyDict.get "message" request = None \/
  PyDict.get "message" request = Some (VStr "") ->
  exists payload w' rec error_msg,
    execute o request w = (inl payload, w') /\
    PyDict.get "status" payload = Some (VStr "error") /\
    PyDict.get "execution_id" payload = Some (VStr (uuid_source w 0)) /\
    PyDict.get (uuid_source w 0) (executions w') = Some rec /\
    status rec = FAILED /\
    error rec = Some error_msg /\
    contains "required" error_msg = true /\
    processor_calls w' = processor_calls w.
Proof.
  intros Hm. rewrite execute_run.
  assert (Hv : truthy (PyDict.get_or "message" (VStr "") request) = false).
  { unfold PyDict.get_or. destruct Hm as [-> | ->]; reflexivity. }
  unfold effective, calls_after. rewrite Hv.
  do 4 eexists. split; [reflexivity|].
  repeat split; simpl executions; [apply PyDictFacts.get_set_same|reflexivity..].
Qed.

Lemma execute_rejects_empty_message_witness :
  (PyDict.get "message" ([] : Dict) = None \/
   PyDict.get "message" ([] : Dict) = Some (VStr "")) /\
  exists payload w' rec error_msg,
    execute (Returned "unused") [] (world (boot sample_ids sample_clock)) =
      (inl payload, w') /\
    PyDict.get "status" payload = Some (VStr "error") /\
    PyDict.get "execution_id" payload = Some (VStr "exec-0") /\
    PyDict.get "exec-0" (executions w') = Some rec /\
    status rec = FAILED /\
    error rec = Some error_msg /\
    contains "required" error_msg = true /\
    processor_calls w' = [].
Proof.
  split; [left; reflexivity|].
  apply (execute_rejects_empty_message (Returned "unused") []
           (world (boot sample_ids sample_clock))).
  left. reflexivity.
Defined.

(* ================================================================== *)
(** ** [cancel] *)

(** C4. [cancel] raises nothing.  On an id that is not in the store it
    returns the error result with message "Execution not found"; on a
    Completed, Failed or Cancelled record it returns an error result
    whose message is "Execution already " followed by the record's
    status, and changes nothing; on a Pending or Running record it
    sets the status to Cancelled and the end time to the current time,
    leaves the other fields and the other records as they were, and
    returns the result with status "cancelled". *)
Theorem cancel_cases (eid : string) (w : World) :
  match PyDict.get eid (executions w) with
  | None =>
      cancel eid w =
      (inl [ ("execution_id", VStr eid); ("status", VStr "error");
             ("message", VStr "Execution not found") ], w)
  | Some r =>
      match status r with
      | COMPLETED | FAILED | CANCELLED =>
          cancel eid w =
          (inl [ ("execution_id", VStr eid); ("status", VStr "error");
                 ("message", VStr ("Execution already " ++ value_of (status r))) ], w)
      | PENDING | RUNNING =>
          exists w',
            cancel eid w =
            (inl [ ("execution_id", VStr eid); ("status", VStr "cancelled");
                   ("message", VStr "Execution cancelled successfully") ], w') /\
            PyDict.get eid (executions w') =
              Some (mkExecution (id r) CANCELLED (request r) (result r) (error r)
                                (start_time r) (Some (clock w 0))) /\
            forall other, other <> eid ->
              PyDict.get other (executions w') = PyDict.get other (executions w)
      end
  end.
Proof.
  destruct (PyDict.get eid (executions w)) as [r|] eqn:H.
  - destruct (status r) eqn:Hs.
    1,2: (rewrite (cancel_live _ _ _ H) by (rewrite Hs; reflexivity);
          eexists; split; [reflexivity|]; simpl executions; split;
          [apply PyDictFacts.get_set_same
          |intros other Hne; apply PyDictFacts.get_set_other; congruence]).
    all: rewrite (cancel_terminal _ _ _ H) by (rewrite Hs; reflexivity);
         unfold already; rewrite Hs; reflexivity.
  - now apply cancel_unknown.
Qed.

(* ================================================================== *)
(** ** Invariants of the store *)

Lemma well_formed_fields r :
  well_formed r = true ->
  (result r <> None <-> status r = COMPLETED) /\
  (error r <> None <-> status r = FAILED) /\
  (end_time r = None <-> status r = PENDING \/ status r = RUNNING).
Proof.
  unfold well_formed.
  destruct (status r), (result r), (error r), (end_time r); try discriminate;
    intros _; repeat split; intros H;
    try congruence; try discriminate; auto;
    try (destruct H; discriminate).
Qed.

(** Changing one record keeps [loop_ok], provided the new record is
    well formed and, if its call is still suspended, still in flight. *)
Lemma loop_ok_set l k v w' susp :
  loop_ok l ->
  executions w' = PyDict.set k v (executions (world l)) ->
  well_formed v = true ->
  (forall eid, In eid susp -> eid = k /\ in_flight v \/ eid <> k /\ In eid (suspended l)) ->
  loop_ok (mkLoop w' susp).
Proof.
  intros [Hwf Hsus] Hex Hv Hs. split; simpl; rewrite Hex.
  - intros eid r Hget. destruct (PyDictFacts.get_set_cases _ _ _ _ _ Hget) as [[_ ->]|[_ Hold]]; eauto.
  - intros eid Hin. destruct (Hs eid Hin) as [[-> Hfl]|[Hne Hold]].
    + exists v. split; [apply PyDictFacts.get_set_same|assumption].
    + destruct (Hsus eid Hold) as [r [Hget Hfl]]. exists r. split; [|assumption].
      rewrite PyDictFacts.get_set_other by congruence. assumption.
Qed.

Lemma loop_ok_same l w' :
  loop_ok l -> executions w' = executions (world l) ->
  loop_ok (mkLoop w' (suspended l)).
Proof. intros [Hwf Hsus] Hex. split; simpl; rewrite Hex; assumption. Qed.

Lemma fresh_not_suspended l eid :
  loop_ok l ->
  PyDict.mem (uuid_source (world l) 0) (executions (world l)) = false ->
  In eid (suspended l) -> eid <> uuid_source (world l) 0.
Proof.
  intros [_ Hsus] Hfresh Hin ->. apply PyDictFacts.mem_false_get in Hfresh.
  destruct (Hsus _ Hin) as [r [Hget _]]. congruence.
Qed.

Lemma enabled_resume l eid o :
  enabled l (Processor_done eid o) = true -> In eid (suspended l).
Proof.
  simpl. rewrite existsb_exists. intros [x [Hin Heq]].
  apply String.eqb_eq in Heq. now subst.
Qed.

Lemma step_loop_ok l ev : loop_ok l -> enabled l ev = true -> loop_ok (step l ev).
Proof.
  intros Hok Hen. destruct ev as [request o|request|eid o|eid|eid|]; simpl step.
  - (* Execute *)
    simpl in Hen. apply negb_true_iff in Hen. rewrite execute_run.
    destruct (effective o request); simpl snd;
      (eapply loop_ok_set; [exact Hok|reflexivity|reflexivity|]);
      intros eid Hin; right; split; auto using fresh_not_suspended.
  - (* Execute_begin *)
    simpl in Hen. apply negb_true_iff in Hen. rewrite execute_begin_run.
    destruct (truthy _).
    + eapply loop_ok_set; [exact Hok|reflexivity|reflexivity|].
      intros eid [<-|Hin].
      * left. split; [reflexivity|]. repeat split. now left.
      * right. split; auto using fresh_not_suspended.
    + rewrite (execute_except_run _ _ _ _ (entered_get _ _ _)).
      eapply (loop_ok_set l (uuid_source (world l) 0)
                (set_failed _ _ (running_execution (world l) request)));
        [exact Hok|simpl executions; apply PyDictFacts.set_set_same|reflexivity|].
      intros eid Hin; right; split; auto using fresh_not_suspended.
  - (* Processor_done *)
    apply enabled_resume in Hen.
    destruct (proj2 Hok _ Hen) as [r [Hget [Hres [Herr Hst]]]].
    rewrite (execute_resume_run _ _ _ _ Hget).
    assert (Hs : forall eid', In eid' (remove string_dec eid (suspended l)) ->
                 eid' <> eid /\ In eid' (suspended l)).
    { intros eid' Hin. apply in_remove in Hin. tauto. }
    destruct o as [response|e]; simpl snd;
      (eapply loop_ok_set; [exact Hok|reflexivity| |intros eid' Hin; right; auto]);
      unfold well_formed; simpl; rewrite ?Hres, ?Herr; reflexivity.
  - (* Cancel *)
    destruct (PyDict.get eid (executions (world l))) as [r|] eqn:Hget.
    + destruct (is_terminal (status r)) eqn:Ht.
      * rewrite (cancel_terminal _ _ _ Hget Ht). now apply loop_ok_same.
      * rewrite (cancel_live _ _ _ Hget Ht). simpl snd.
        pose proof (proj1 Hok _ _ Hget) as Hwf.
        assert (Hnone : result r = None /\ error r = None).
        { unfold well_formed in Hwf.
          destruct (status r), (result r), (error r), (end_time r);
            try discriminate; auto. }
        destruct Hnone as [Hres Herr].
        eapply loop_ok_set; [exact Hok|reflexivity| |].
        -- unfold well_formed. simpl. now rewrite Hres, Herr.
        -- intros eid' Hin. destruct (string_dec eid' eid) as [->|Hne].
           ++ left. split; [reflexivity|]. repeat split; simpl; auto.
           ++ right. auto.
    + rewrite (cancel_unknown _ _ Hget). now apply loop_ok_same.
  - (* Get_execution_status *)
    rewrite get_execution_status_run. now apply loop_ok_same.
  - (* List_executions *)
    now apply loop_ok_same.
Qed.

Lemma boot_ok ids clk : loop_ok (boot ids clk).
Proof. split; simpl; [discriminate|intros _ []]. Qed.

Lemma run_loop_ok evs : forall l, loop_ok l -> valid l evs = true -> loop_ok (run l evs).
Proof.
  induction evs as [|ev evs IH]; simpl; intros l Hok Hv; [assumption|].
  apply andb_true_iff in Hv. destruct Hv as [Hen Hv].
  apply IH; [now apply step_loop_ok|assumption].
Qed.

(** C2. In every state reached from start-up by any sequence of
    execute, cancel, get_execution_status and list_executions calls
    (an execute call may also be caught while it waits for the
    processor), every record of the store has a result exactly when
    its status is Completed and an error exactly when its status is
    Failed; Cancelled, Pending and Running records have neither. *)
Theorem result_and_error_follow_status
    (ids : nat -> string) (clk : nat -> datetime) (evs : list event)
    (eid : string) (r : Execution) :
  valid (boot ids clk) evs = true ->
  PyDict.get eid (executions (world (run (boot ids clk) evs))) = Some r ->
  (result r <> None <-> status r = COMPLETED) /\
  (error r <> None <-> status r = FAILED) /\
  (status r = CANCELLED \/ status r = PENDING \/ status r = RUNNING ->
   result r = None /\ error r = None).
Proof.
  intros Hv Hget.
  pose proof (run_loop_ok evs _ (boot_ok ids clk) Hv) as [Hwf _].
  specialize (Hwf _ _ Hget).
  destruct (well_formed_fields r Hwf) as [Hres [Herr _]].
  repeat split; try apply Hres; try apply Herr.
  - unfold well_formed in Hwf.
    destruct (status r), (result r), (error r), (end_time r); try discriminate; auto;
      destruct H as [H|[H|H]]; discriminate.
  - unfold well_formed in Hwf.
    destruct (status r), (result r), (error r), (end_time r); try discriminate; auto;
      destruct H as [H|[H|H]]; discriminate.
Qed.

Lemma sample_trace_valid : valid (boot sample_ids sample_clock) sample_trace = true.
Proof. vm_compute. reflexivity. Qed.

Lemma sample_final_completed :
  PyDict.get "exec-0" (executions (world (run (boot sample_ids sample_clock) sample_trace))) = Some sample_completed.
Proof. vm_compute. reflexivity. Qed.

Lemma sample_final_cancelled :
  PyDict.get "exec-2" (executions (world (run (boot sample_ids sample_clock) sample_trace))) = Some sample_cancelled.
Proof. vm_compute. reflexivity. Qed.

Lemma result_and_error_follow_status_witness :
  valid (boot sample_ids sample_clock) sample_trace = true /\
  PyDict.get "exec-2" (executions (world (run (boot sample_ids sample_clock) sample_trace))) = Some sample_cancelled /\
  ((result sample_cancelled <> None <-> status sample_cancelled = COMPLETED) /\
   (error sample_cancelled <> None <-> status sample_cancelled = FAILED) /\
   (status sample_cancelled = CANCELLED \/ status sample_cancelled = PENDING \/
    status sample_cancelled = RUNNING ->
    result sample_cancelled = None /\ error sample_cancelled = None)).
Proof.
  split; [exact sample_trace_valid|]. split; [exact sample_final_cancelled|].
  exact (result_and_error_follow_status sample_ids sample_clock sample_trace
           "exec-2" sample_cancelled sample_trace_valid sample_final_cancelled).
Defined.

Lemma value_of_inj a b : value_of a = value_of b -> a = b.
Proof. destruct a, b; simpl; intros H; try reflexivity; discriminate. Qed.

(** C7. In every state reached from start-up, every record of the
    store has no end time exactly when its status is Pending or
    Running, and the snapshot [get_execution_status] returns for its
    id shows the same: its end_time is null exactly when its status is
    "pending" or "running". *)
Theorem end_time_follows_status
    (ids : nat -> string) (clk : nat -> datetime) (evs : list event)
    (eid : string) (r : Execution) :
  valid (boot ids clk) evs = true ->
  PyDict.get eid (executions (world (run (boot ids clk) evs))) = Some r ->
  (end_time r = None <-> status r = PENDING \/ status r = RUNNING) /\
  exists snap,
    get_execution_status eid (world (run (boot ids clk) evs)) =
      (inl snap, world (run (boot ids clk) evs)) /\
    PyDict.get "status" snap = Some (VStr (value_of (status r))) /\
    (PyDict.get "end_time" snap = Some VNone <->
     PyDict.get "status" snap = Some (VStr "pending") \/
     PyDict.get "status" snap = Some (VStr "running")).
Proof.
  intros Hv Hget.
  pose proof (run_loop_ok evs _ (boot_ok ids clk) Hv) as [Hwf _].
  specialize (Hwf _ _ Hget).
  destruct (well_formed_fields r Hwf) as [_ [_ Hend]].
  split; [exact Hend|].
  rewrite get_execution_status_run, Hget.
  eexists. split; [reflexivity|]. split; [reflexivity|].
  simpl. split.
  - intros H.
    assert (He : end_time r = None) by (destruct (end_time r); [discriminate|reflexivity]).
    apply Hend in He. destruct He as [-> | ->]; auto.
  - intros H.
    assert (He : end_time r = None).
    { apply Hend. destruct H as [H|H]; injection H as H;
        [left; apply value_of_inj|right; apply value_of_inj]; exact H. }
    rewrite He. reflexivity.
Qed.

Lemma end_time_follows_status_witness :
  valid (boot sample_ids sample_clock) sample_trace = true /\
  PyDict.get "exec-0" (executions (world (run (boot sample_ids sample_clock) sample_trace))) = Some sample_completed /\
  ((end_time sample_completed = None <->
    status sample_completed = PENDING \/ status sample_completed = RUNNING) /\
   exists snap,
     get_execution_status "exec-0"
       (world (run (boot sample_ids sample_clock) sample_trace)) =
       (inl snap, world (run (boot sample_ids sample_clock) sample_trace)) /\
     PyDict.get "status" snap = Some (VStr (value_of (status sample_completed))) /\
     (PyDict.get "end_time" snap = Some VNone <->
      PyDict.get "status" snap = Some (VStr "pending") \/
      PyDict.get "status" snap = Some (VStr "running"))).
Proof.
  split; [exact sample_trace_valid|]. split; [exact sample_final_completed|].
  exact (end_time_follows_status sample_ids sample_clock sample_trace
           "exec-0" sample_completed sample_trace_valid sample_final_completed).
Defined.

(* ================================================================== *)
(** ** Listing *)

Lemma step_length l ev :
  enabled l ev = true ->
  length (executions (world (step l ev))) =
  length (executions (world l)) + (if counts_as_execute ev then 1 else 0).
Proof.
  intros Hen. destruct ev as [request o|request|eid o|eid|eid|]; simpl step;
    simpl counts_as_execute; rewrite ?Nat.add_0_r.
  - simpl in Hen. apply negb_true_iff, PyDictFacts.mem_false_get in Hen. rewrite execute_run.
    destruct (effective o request); simpl; rewrite PyDictFacts.length_set_new; auto; lia.
  - simpl in Hen. apply negb_true_iff, PyDictFacts.mem_false_get in Hen. rewrite execute_begin_run.
    destruct (truthy _).
    + simpl. rewrite PyDictFacts.length_set_new; auto; lia.
    + rewrite (execute_except_run _ _ _ _ (entered_get _ _ _)).
      simpl. rewrite PyDictFacts.set_set_same, PyDictFacts.length_set_new; auto; lia.
  - destruct (PyDict.get eid (executions (world l))) as [r|] eqn:Hget.
    + rewrite (execute_resume_run _ _ _ _ Hget).
      destruct o; simpl; apply PyDictFacts.length_set_old; congruence.
    + simpl. now rewrite execute_resume_missing.
  - destruct (PyDict.get eid (executions (world l))) as [r|] eqn:Hget.
    + destruct (is_terminal (status r)) eqn:Ht.
      * now rewrite (cancel_terminal _ _ _ Hget Ht).
      * rewrite (cancel_live _ _ _ Hget Ht). simpl.
        apply PyDictFacts.length_set_old. congruence.
    + now rewrite (cancel_unknown _ _ Hget).
  - now rewrite get_execution_status_run.
  - reflexivity.
Qed.

Lemma run_length evs : forall l,
  valid l evs = true ->
  length (executions (world (run l evs))) =
  length (executions (world l)) + length (filter counts_as_execute evs).
Proof.
  induction evs as [|ev evs IH]; simpl; intros l Hv; [lia|].
  apply andb_true_iff in Hv. destruct Hv as [Hen Hv].
  rewrite (IH _ Hv), (step_length _ _ Hen).
  destruct (counts_as_execute ev); simpl; lia.
Qed.

(** C8. After any sequence of events from start-up, [n] of them
    execute calls (answered, failed or still waiting), mixed with any
    number of cancel, get_execution_status and list_executions calls,
    [list_executions] returns exactly [n] summaries, each with the keys
    execution_id, status, start_time and end_time and no other; and
    neither [list_executions] nor [get_execution_status] changes the
    world, whatever it is. *)
Theorem list_executions_counts_executes
    (ids : nat -> string) (clk : nat -> datetime) (evs : list event) :
  valid (boot ids clk) evs = true ->
  exists summaries,
    list_executions (world (run (boot ids clk) evs)) =
      (inl summaries, world (run (boot ids clk) evs)) /\
    length summaries = length (filter counts_as_execute evs) /\
    Forall (fun s => PyDict.keys s = ["execution_id"; "status"; "start_time"; "end_time"])
           summaries /\
    (forall w, snd (list_executions w) = w) /\
    (forall w eid, snd (get_execution_status eid w) = w).
Proof.
  intros Hv. eexists. split; [reflexivity|]. split; [|split; [|split]].
  - unfold PyDict.items. rewrite length_map, (run_length _ _ Hv). reflexivity.
  - apply Forall_forall. intros s Hin. apply in_map_iff in Hin.
    destruct Hin as [[k e] [<- _]]. reflexivity.
  - reflexivity.
  - intros w eid. now rewrite get_execution_status_run.
Qed.

Lemma list_executions_counts_executes_witness :
  valid (boot sample_ids sample_clock) sample_trace = true /\
  exists summaries,
    list_executions (world (run (boot sample_ids sample_clock) sample_trace)) =
      (inl summaries, world (run (boot sample_ids sample_clock) sample_trace)) /\
    length summaries = length (filter counts_as_execute sample_trace) /\
    Forall (fun s => PyDict.keys s = ["execution_id"; "status"; "start_time"; "end_time"])
           summaries /\
    (forall w, snd (list_executions w) = w) /\
    (forall w eid, snd (get_execution_status eid w) = w).
Proof.
  split; [exact sample_trace_valid|].
  exact (list_executions_counts_executes sample_ids sample_clock sample_trace
           sample_trace_valid).
Defined.

(* ================================================================== *)
(** ** Terminal records *)

Lemma step_keeps_terminal l ev eid r :
  PyDict.get eid (executions (world l)) = Some r ->
  is_terminal (status r) = true ->
  enabled l ev = true ->
  foreign_to eid ev = true ->
  PyDict.get eid (executions (world (step l ev))) = Some r.
Proof.
  intros Hget Ht Hen Hfor.
  assert (Hfresh : PyDict.mem (uuid_source (world l) 0) (executions (world l)) = false ->
                   uuid_source (world l) 0 <> eid).
  { intros Hm Heq. apply PyDictFacts.mem_false_get in Hm. rewrite Heq in Hm. congruence. }
  destruct ev as [request o|request|eid' o|eid'|eid'|]; simpl step.
  - simpl in Hen. apply negb_true_iff in Hen. rewrite execute_run.
    destruct (effective o request); simpl; rewrite PyDictFacts.get_set_other; auto.
  - simpl in Hen. apply negb_true_iff in Hen. rewrite execute_begin_run.
    destruct (truthy _).
    + simpl. rewrite PyDictFacts.get_set_other; auto.
    + rewrite (execute_except_run _ _ _ _ (entered_get _ _ _)).
      simpl. rewrite PyDictFacts.set_set_same, PyDictFacts.get_set_other; auto.
  - simpl in Hfor. apply negb_true_iff, String.eqb_neq in Hfor.
    destruct (PyDict.get eid' (executions (world l))) as [r'|] eqn:Hget'.
    + rewrite (execute_resume_run _ _ _ _ Hget').
      destruct o; simpl; rewrite PyDictFacts.get_set_other; auto.
    + simpl. now rewrite execute_resume_missing.
  - destruct (PyDict.get eid' (executions (world l))) as [r'|] eqn:Hget'.
    + destruct (is_terminal (status r')) eqn:Ht'.
      * now rewrite (cancel_terminal _ _ _ Hget' Ht').
      * rewrite (cancel_live _ _ _ Hget' Ht'). simpl.
        rewrite PyDictFacts.get_set_other; auto. congruence.
    + now rewrite (cancel_unknown _ _ Hget').
  - now rewrite get_execution_status_run.
  - assumption.
Qed.

(** A terminal record is left alone by every later call: [execute]
    works on the record of its own fresh id, [cancel] refuses, the two
    readers only read. *)
Lemma later_calls_keep_terminal_records evs : forall l eid r,
  PyDict.get eid (executions (world l)) = Some r ->
  is_terminal (status r) = true ->
  valid l evs = true ->
  forallb (foreign_to eid) evs = true ->
  PyDict.get eid (executions (world (run l evs))) = Some r.
Proof.
  induction evs as [|ev evs IH]; simpl; intros l eid r Hget Ht Hv Hfor; [assumption|].
  apply andb_true_iff in Hv. destruct Hv as [Hen Hv].
  apply andb_true_iff in Hfor. destruct Hfor as [Hf Hfor].
  apply IH; auto using step_keeps_terminal.
Qed.

(** In particular by every sequence of whole calls. *)
Lemma whole_calls_keep_terminal_records evs l eid r :
  PyDict.get eid (executions (world l)) = Some r ->
  is_terminal (status r) = true ->
  valid l evs = true ->
  forallb is_call evs = true ->
  PyDict.get eid (executions (world (run l evs))) = Some r.
Proof.
  intros Hget Ht Hv Hcalls.
  apply later_calls_keep_terminal_records; auto.
  rewrite forallb_forall in *. intros ev Hin.
  specialize (Hcalls ev Hin). destruct ev; auto; discriminate.
Qed.

(** The processor's answer is written down whatever the record says by
    then: lines 87-91 and 101-105 do not look at the current status. *)
Lemma execute_resume_overwrites eid o w r :
  PyDict.get eid (executions w) = Some r ->
  exists r',
    PyDict.get eid (executions (snd (execute_resume eid o w))) = Some r' /\
    status r' = match o with Returned _ => COMPLETED | Raised _ => FAILED end /\
    end_time r' = Some (clock w match o with Returned _ => 1 | Raised _ => 0 end).
Proof.
  intros Hget. rewrite (execute_resume_run _ _ _ _ Hget).
  destruct o; simpl; eexists; (split; [apply PyDictFacts.get_set_same|split; reflexivity]).
Qed.

(** C3. The record of an execute call that is cancelled while it waits
    for the processor is Cancelled, with its end time set, once
    [cancel] has returned; when the processor answers, the same record
    becomes Completed, gets a result and a new end time.  So the
    Cancelled state is left again, although every call made after a
    record became terminal leaves it alone
    ([later_calls_keep_terminal_records]). *)
Theorem cancelled_record_is_overwritten :
  valid (boot sample_ids sample_clock) race_trace = true /\
  PyDict.get "exec-0"
    (executions (world (run (boot sample_ids sample_clock) (firstn 2 race_trace)))) =
    Some (mkExecution "exec-0" CANCELLED [("message", VStr "slow")] None None
            (Some (sample_clock 0)) (Some (sample_clock 1))) /\
  PyDict.get "exec-0"
    (executions (world (run (boot sample_ids sample_clock) race_trace))) =
    Some (mkExecution "exec-0" COMPLETED [("message", VStr "slow")]
            (Some [ ("execution_id", VStr "exec-0"); ("response", VStr "late");
                    ("status", VStr "success");
                    ("timestamp", VStr "2025-01-01T12:00:02");
                    ("agent_type", VStr "product_manager") ])
            None (Some (sample_clock 0)) (Some (sample_clock 3))).
Proof. vm_compute. repeat split. Qed.

(* ================================================================== *)
(** ** GET /status/{id} *)

(** C9. The status endpoint answers 404, with the not-found body, when
    the id is not in the store, and 200 with the record's snapshot when
    it is; it changes nothing and raises nothing.  For a stored record
    the status field of the snapshot is one of "pending", "running",
    "completed", "cancelled", "failed", hence never the "error" the
    endpoint tests for. *)
Theorem status_endpoint_codes (eid : string) (w : World) :
  match PyDict.get eid (executions w) with
  | None =>
      _status_endpoint eid w =
      (inl (404, [ ("execution_id", VStr eid); ("status", VStr "error");
                   ("message", VStr "Execution not found") ]), w)
  | Some r =>
      exists snap s,
        get_execution_status eid w = (inl snap, w) /\
        _status_endpoint eid w = (inl (200, snap), w) /\
        snap = [ ("execution_id", VStr eid);
                 ("status", VStr (value_of (status r)));
                 ("start_time", isoformat_or_none (start_time r));
                 ("end_time", isoformat_or_none (end_time r));
                 ("result", opt_dict (result r));
                 ("error", opt_str (error r)) ] /\
        PyDict.get "status" snap = Some (VStr s) /\
        In s ["pending"; "running"; "completed"; "cancelled"; "failed"] /\
        s <> "error"
  end.
Proof.
  unfold _status_endpoint, try_except, bind. rewrite get_execution_status_run.
  destruct (PyDict.get eid (executions w)) as [r|]; [|reflexivity].
  exists (snapshot eid r), (value_of (status r)).
  split; [reflexivity|]. split.
  - unfold ret, snapshot, PyDict.get_or. simpl. unfold eq_str.
    destruct (status r); reflexivity.
  - split; [reflexivity|]. split; [reflexivity|].
    destruct (status r); simpl; split; try discriminate; tauto.
Qed.

(* ================================================================== *)
(** ** POST /chat/message *)

Lemma length_app (s1 s2 : string) :
  String.length (s1 ++ s2) = String.length s1 + String.length s2.
Proof. induction s1; simpl; auto. Qed.

Lemma VStr_inj a b : VStr a = VStr b -> a = b.
Proof. intros H. now injection H. Qed.

Lemma apology_differs msg : apology ++ msg <> msg.
Proof.
  intros H. apply (f_equal String.length) in H. rewrite length_app in H.
  simpl in H. lia.
Qed.

(** C10. The chat endpoint always answers with a chat response.  When
    the executor's result has status "success", the chat response
    carries the processor's text as response and "completed" as
    status.  Otherwise the executor's result has status "error", the
    chat status is "error" and the chat response text is the record's
    error message as stored, which is not the apology text that the
    executor returns as response and that POST /execute passes on,
    with code 200, for the same request and processor outcome. *)
Theorem chat_response_shape (o : outcome) (request : ChatRequest.t) (w : World) :
  exists result w' chat,
    execute o (execution_request request) w = (inl result, w') /\
    chat_with_agent o request w = (inl chat, w') /\
    ChatResponse.execution_id chat = VStr (uuid_source w 0) /\
    if eq_str (PyDict.get_or "status" VNone result) "success" then
      exists r, o = Returned r /\
        PyDict.get "response" result = Some (VStr r) /\
        ChatResponse.response chat = VStr r /\
        ChatResponse.status chat = VStr "completed"
    else
      exists rec error_msg,
        PyDict.get "status" result = Some (VStr "error") /\
        ChatResponse.status chat = VStr "error" /\
        PyDict.get (uuid_source w 0) (executions w') = Some rec /\
        error rec = Some error_msg /\
        ChatResponse.response chat = VStr error_msg /\
        PyDict.get "response" result = Some (VStr (apology ++ error_msg)) /\
        ChatResponse.response chat <> VStr (apology ++ error_msg) /\
        _execute_endpoint o (execution_request request) w = (inl (200, result), w').
Proof.
  unfold chat_with_agent, _execute_endpoint, try_except, bind.
  change (PyDict.mem "message" (execution_request request)) with true.
  cbv beta iota. change (negb true) with false. cbv beta iota.
  rewrite execute_run.
  destruct (fails o (execution_request request)) eqn:Hf.
  - destruct (effective_fails _ _ Hf) as [e ->].
    do 3 eexists. split; [reflexivity|]. split; [reflexivity|]. split; [reflexivity|].
    simpl.
    exists (set_failed ("Execution failed: " ++ str e) (clock w 1)
              (running_execution w (execution_request request))).
    exists ("Execution failed: " ++ str e).
    split; [reflexivity|]. split; [reflexivity|].
    split; [apply PyDictFacts.get_set_same|].
    split; [reflexivity|]. split; [reflexivity|]. split; [reflexivity|].
    split; [|reflexivity].
    intros H. apply VStr_inj in H.
    exact (apology_differs ("Execution failed: " ++ str e) (eq_sym H)).
  - destruct (effective_succeeds _ _ Hf) as [r [-> ->]].
    do 3 eexists. split; [reflexivity|]. split; [reflexivity|]. split; [reflexivity|].
    simpl. exists r. repeat split.
Qed.


(* ================================================================== *)
(** * Further properties *)

(** ** Dictionaries: keys and their order *)

Module PyDictOrder.

Import PyDict.

Section Facts.
Context {V : Type}.
Implicit Types (d : PyDict.t V) (v : V) (k : string).

Lemma keys_set_new k v d : get k d = None -> keys (set k v d) = (keys d ++ [k])%list.
Proof.
  unfold keys. induction d as [|[k0 v0] d IH]; simpl; auto.
  destruct (String.eqb k k0); [discriminate|].
  intros H. simpl. now rewrite IH.
Qed.

Lemma keys_set_old k v d : get k d <> None -> keys (set k v d) = keys d.
Proof.
  unfold keys. induction d as [|[k0 v0] d IH]; simpl; [congruence|].
  destruct (String.eqb k k0) eqn:E; simpl.
  - apply String.eqb_eq in E. now subst.
  - intros H. now rewrite IH.
Qed.

Lemma mem_set k v d k' : mem k' d = true -> mem k' (set k v d) = true.
Proof.
  unfold mem. destruct (string_dec k k') as [->|Hne].
  - now rewrite PyDictFacts.get_set_same.
  - now rewrite PyDictFacts.get_set_other.
Qed.

Lemma get_app_new k d k' v' :
  get k d = None -> k <> k' -> get k (d ++ [(k', v')])%list = None.
Proof.
  induction d as [|[k0 v0] d IH]; simpl.
  - intros _ Hne. apply String.eqb_neq in Hne. now rewrite Hne.
  - destruct (String.eqb k k0); [discriminate|auto].
Qed.

Lemma set_new_app k v d : get k d = None -> set k v d = (d ++ [(k, v)])%list.
Proof.
  induction d as [|[k0 v0] d IH]; simpl; auto.
  destruct (String.eqb k k0); [discriminate|].
  intros H. now rewrite IH.
Qed.

End Facts.

End PyDictOrder.

(* ================================================================== *)
(** ** The store over a whole run *)

(** Every event leaves [self.executions] as it is or assigns one key. *)
Lemma step_store l ev :
  executions (world (step l ev)) = executions (world l) \/
  exists k v, executions (world (step l ev)) = PyDict.set k v (executions (world l)).
Proof.
  destruct ev as [request o|request|eid o|eid|eid|]; simpl step.
  - right. rewrite execute_run. destruct (effective o request); simpl; eauto.
  - right. rewrite execute_begin_run. destruct (truthy _).
    + simpl. eauto.
    + rewrite (execute_except_run _ _ _ _ (entered_get _ _ _)).
      simpl. rewrite PyDictFacts.set_set_same. eauto.
  - destruct (PyDict.get eid (executions (world l))) as [r|] eqn:Hget.
    + right. rewrite (execute_resume_run _ _ _ _ Hget). destruct o; simpl; eauto.
    + left. simpl. now apply execute_resume_missing.
  - destruct (PyDict.get eid (executions (world l))) as [r|] eqn:Hget.
    + destruct (is_terminal (status r)) eqn:Ht.
      * left. now rewrite (cancel_terminal _ _ _ Hget Ht).
      * right. rewrite (cancel_live _ _ _ Hget Ht). simpl. eauto.
    + left. now rewrite (cancel_unknown _ _ Hget).
  - left. now rewrite get_execution_status_run.
  - now left.
Qed.

(** X1. Nothing ever removes a record: an id that is in the store
    stays in the store through every sequence of events, valid or
    not. *)
Theorem records_are_never_removed (evs : list event) (l : Loop) (eid : string) :
  PyDict.mem eid (executions (world l)) = true ->
  PyDict.mem eid (executions (world (run l evs))) = true.
Proof.
  revert l. induction evs as [|ev evs IH]; simpl; intros l Hmem; [assumption|].
  apply IH. destruct (step_store l ev) as [->|[k [v ->]]]; [assumption|].
  now apply PyDictOrder.mem_set.
Qed.

Lemma records_are_never_removed_witness :
  PyDict.mem "exec-0"
    (executions (world (run (boot sample_ids sample_clock) (firstn 1 sample_trace)))) = true /\
  PyDict.mem "exec-0"
    (executions (world (run (run (boot sample_ids sample_clock) (firstn 1 sample_trace))
                            (skipn 1 sample_trace)))) = true.
Proof.
  assert (H : PyDict.mem "exec-0"
    (executions (world (run (boot sample_ids sample_clock) (firstn 1 sample_trace)))) = true)
    by (vm_compute; reflexivity).
  split; [exact H|].
  exact (records_are_never_removed (skipn 1 sample_trace) _ "exec-0" H).
Defined.

Lemma step_identity l ev eid r :
  enabled l ev = true ->
  PyDict.get eid (executions (world l)) = Some r ->
  exists r',
    PyDict.get eid (executions (world (step l ev))) = Some r' /\
    id r' = id r /\ request r' = request r /\ start_time r' = start_time r.
Proof.
  intros Hen Hget.
  assert (Hfresh : PyDict.mem (uuid_source (world l) 0) (executions (world l)) = false ->
                   uuid_source (world l) 0 <> eid).
  { intros Hm Heq. apply PyDictFacts.mem_false_get in Hm. rewrite Heq in Hm. congruence. }
  assert (Hsame : forall w', executions w' = executions (world l) ->
            exists r', PyDict.get eid (executions w') = Some r' /\
              id r' = id r /\ request r' = request r /\ start_time r' = start_time r).
  { intros w' ->. eauto. }
  assert (Hset : forall w' k (f : Execution -> Execution) r0,
            executions w' = PyDict.set k (f r0) (executions (world l)) ->
            (k = eid -> r0 = r) ->
            id (f r) = id r /\ request (f r) = request r /\ start_time (f r) = start_time r ->
            exists r', PyDict.get eid (executions w') = Some r' /\
              id r' = id r /\ request r' = request r /\ start_time r' = start_time r).
  { intros w' k f r0 -> Hk Hf. destruct (string_dec k eid) as [->|Hne].
    - rewrite (Hk eq_refl), PyDictFacts.get_set_same. eauto.
    - rewrite PyDictFacts.get_set_other by assumption. eauto. }
  destruct ev as [request0 o|request0|eid' o|eid'|eid'|]; simpl step.
  - simpl in Hen. apply negb_true_iff in Hen. rewrite execute_run.
    destruct (effective o request0); simpl;
      rewrite PyDictFacts.get_set_other by auto; eauto.
  - simpl in Hen. apply negb_true_iff in Hen. rewrite execute_begin_run.
    destruct (truthy _).
    + simpl. rewrite PyDictFacts.get_set_other by auto. eauto.
    + rewrite (execute_except_run _ _ _ _ (entered_get _ _ _)).
      simpl. rewrite PyDictFacts.set_set_same, PyDictFacts.get_set_other by auto. eauto.
  - destruct (PyDict.get eid' (executions (world l))) as [r0|] eqn:Hget'.
    + rewrite (execute_resume_run _ _ _ _ Hget').
      destruct o as [response|e]; simpl snd.
      * eapply (Hset _ eid' (set_completed _ _) r0); [reflexivity| |auto].
        intros ->. congruence.
      * eapply (Hset _ eid' (set_failed _ _) r0); [reflexivity| |auto].
        intros ->. congruence.
    + apply Hsame. simpl. now apply execute_resume_missing.
  - destruct (PyDict.get eid' (executions (world l))) as [r0|] eqn:Hget'.
    + destruct (is_terminal (status r0)) eqn:Ht.
      * apply Hsame. now rewrite (cancel_terminal _ _ _ Hget' Ht).
      * rewrite (cancel_live _ _ _ Hget' Ht). simpl snd.
        eapply (Hset _ eid' (set_cancelled _) r0); [reflexivity| |auto].
        intros ->. congruence.
    + apply Hsame. now rewrite (cancel_unknown _ _ Hget').
  - apply Hsame. now rewrite get_execution_status_run.
  - apply Hsame. reflexivity.
Qed.

(** X2. The identity of a record is fixed at creation: through every
    valid sequence of events (completion of its own call and
    cancellation included) the record under an id keeps its [id], its
    [request] and its [start_time]. *)
Theorem identity_fields_are_stable (evs : list event) (l : Loop) (eid : string) (r : Execution) :
  valid l evs = true ->
  PyDict.get eid (executions (world l)) = Some r ->
  exists r',
    PyDict.get eid (executions (world (run l evs))) = Some r' /\
    id r' = id r /\ request r' = request r /\ start_time r' = start_time r.
Proof.
  revert l r. induction evs as [|ev evs IH]; simpl; intros l r Hv Hget; [eauto|].
  apply andb_true_iff in Hv. destruct Hv as [Hen Hv].
  destruct (step_identity l ev eid r Hen Hget) as [r1 [Hget1 [Hid [Hreq Hst]]]].
  destruct (IH _ _ Hv Hget1) as [r' [Hget' [Hid' [Hreq' Hst']]]].
  exists r'. repeat split; congruence.
Qed.

Lemma identity_fields_are_stable_witness :
  valid (boot sample_ids sample_clock) race_trace = true /\
  exists r r',
    PyDict.get "exec-0"
      (executions (world (run (boot sample_ids sample_clock) (firstn 1 race_trace)))) = Some r /\
    PyDict.get "exec-0"
      (executions (world (run (run (boot sample_ids sample_clock) (firstn 1 race_trace))
                              (skipn 1 race_trace)))) = Some r' /\
    status r = RUNNING /\ status r' = COMPLETED /\
    id r' = id r /\ request r' = request r /\ start_time r' = start_time r.
Proof.
  split; [vm_compute; reflexivity|].
  assert (Hv : valid (run (boot sample_ids sample_clock) (firstn 1 race_trace))
                 (skipn 1 race_trace) = true) by (vm_compute; reflexivity).
  assert (Hget : PyDict.get "exec-0"
            (executions (world (run (boot sample_ids sample_clock) (firstn 1 race_trace)))) =
            Some (mkExecution "exec-0" RUNNING [("message", VStr "slow")] None None
                    (Some (sample_clock 0)) None)) by (vm_compute; reflexivity).
  destruct (identity_fields_are_stable _ _ _ _ Hv Hget) as [r' [Hget' Hsame]].
  eexists. exists r'. split; [exact Hget|]. split; [exact Hget'|].
  split; [reflexivity|]. split; [|exact Hsame].
  vm_compute in Hget'. injection Hget' as <-. reflexivity.
Defined.

(** What ties a state to the identifier source [ids] it started with:
    [n] identifiers were drawn, the store holds them in the order of
    drawing, and each record carries its own key. *)
Lemma step_drawn ids l ev n :
  enabled l ev = true ->
  PyDict.keys (executions (world l)) = map ids (seq 0 n) ->
  (forall k, uuid_source (world l) k = ids (n + k)) ->
  (forall eid r, PyDict.get eid (executions (world l)) = Some r -> id r = eid) ->
  let n' := n + (if counts_as_execute ev then 1 else 0) in
  PyDict.keys (executions (world (step l ev))) = map ids (seq 0 n') /\
  (forall k, uuid_source (world (step l ev)) k = ids (n' + k)) /\
  (forall eid r, PyDict.get eid (executions (world (step l ev))) = Some r -> id r = eid).
Proof.
  intros Hen Hkeys Hsrc Hid.
  assert (Hnew : forall v : Execution,
            PyDict.mem (uuid_source (world l) 0) (executions (world l)) = false ->
            PyDict.keys (PyDict.set (uuid_source (world l) 0) v (executions (world l))) =
            map ids (seq 0 (n + 1))).
  { intros v Hm. apply PyDictFacts.mem_false_get in Hm.
    rewrite PyDictOrder.keys_set_new by assumption.
    rewrite Hkeys, Hsrc, Nat.add_0_r, seq_app, map_app. reflexivity. }
  assert (Hsrc' : forall k, later 1 (uuid_source (world l)) k = ids (n + 1 + k)).
  { intros k. unfold later. rewrite Hsrc. f_equal. lia. }
  assert (Hid' : forall k (v : Execution), id v = k ->
            forall eid r, PyDict.get eid (PyDict.set k v (executions (world l))) = Some r ->
            id r = eid).
  { intros k v Hv eid r Hget.
    destruct (PyDictFacts.get_set_cases _ _ _ _ _ Hget) as [[-> ->]|[_ Hold]]; eauto. }
  assert (Hold : forall k (v r0 : Execution),
            PyDict.get k (executions (world l)) = Some r0 ->
            PyDict.keys (PyDict.set k v (executions (world l))) = map ids (seq 0 (n + 0))).
  { intros k v r0 Hget. rewrite PyDictOrder.keys_set_old by congruence.
    now rewrite Nat.add_0_r. }
  destruct ev as [request o|request|eid o|eid|eid|]; simpl step;
    simpl counts_as_execute; cbv zeta.
  - simpl in Hen. apply negb_true_iff in Hen. rewrite execute_run.
    destruct (effective o request); simpl; (split; [auto|split; [exact Hsrc'|]]);
      apply Hid'; reflexivity.
  - simpl in Hen. apply negb_true_iff in Hen. rewrite execute_begin_run.
    destruct (truthy _).
    + simpl. split; [auto|split; [exact Hsrc'|]]. apply Hid'. reflexivity.
    + rewrite (execute_except_run _ _ _ _ (entered_get _ _ _)).
      simpl. rewrite PyDictFacts.set_set_same.
      split; [auto|split; [exact Hsrc'|]]. apply Hid'. reflexivity.
  - destruct (PyDict.get eid (executions (world l))) as [r0|] eqn:Hget.
    + rewrite (execute_resume_run _ _ _ _ Hget).
      destruct o; simpl; (split; [eauto|split; [now rewrite Nat.add_0_r|]]);
        apply Hid'; simpl; eauto.
    + simpl. rewrite execute_resume_missing by assumption.
      rewrite Nat.add_0_r. repeat split; auto.
      unfold execute_resume, try_except, bind, await_processor.
      destruct o; simpl; unfold execute_tail, execute_except, bind, getitem, utcnow, raise;
        simpl; rewrite ?Hget; simpl; rewrite ?Hget; simpl; auto.
  - destruct (PyDict.get eid (executions (world l))) as [r0|] eqn:Hget.
    + destruct (is_terminal (status r0)) eqn:Ht.
      * rewrite (cancel_terminal _ _ _ Hget Ht). simpl. rewrite Nat.add_0_r. auto.
      * rewrite (cancel_live _ _ _ Hget Ht). simpl.
        split; [eauto|split; [now rewrite Nat.add_0_r|]].
        apply Hid'. simpl. eauto.
    + rewrite (cancel_unknown _ _ Hget). simpl. rewrite Nat.add_0_r. auto.
  - rewrite get_execution_status_run. simpl. rewrite Nat.add_0_r. auto.
  - simpl. rewrite Nat.add_0_r. auto.
Qed.

Lemma run_drawn ids evs : forall l n,
  valid l evs = true ->
  PyDict.keys (executions (world l)) = map ids (seq 0 n) ->
  (forall k, uuid_source (world l) k = ids (n + k)) ->
  (forall eid r, PyDict.get eid (executions (world l)) = Some r -> id r = eid) ->
  let n' := n + length (filter counts_as_execute evs) in
  PyDict.keys (executions (world (run l evs))) = map ids (seq 0 n') /\
  (forall k, uuid_source (world (run l evs)) k = ids (n' + k)) /\
  (forall eid r, PyDict.get eid (executions (world (run l evs))) = Some r -> id r = eid).
Proof.
  induction evs as [|ev evs IH]; simpl; intros l n Hv Hkeys Hsrc Hid.
  - rewrite Nat.add_0_r. auto.
  - apply andb_true_iff in Hv. destruct Hv as [Hen Hv].
    destruct (step_drawn ids l ev n Hen Hkeys Hsrc Hid) as [Hk1 [Hs1 Hi1]].
    specialize (IH _ _ Hv Hk1 Hs1 Hi1).
    destruct (counts_as_execute ev); simpl length;
      [replace (n + S (length (filter counts_as_execute evs)))
         with (n + 1 + length (filter counts_as_execute evs)) by lia
      |rewrite Nat.add_0_r in IH]; exact IH.
Qed.

(** X3. After any valid sequence of events from start-up, of which [n]
    start an execute call, the keys of the store are the first [n]
    identifiers [uuid4] returned, in that order; [list_executions]
    lists the executions in this order of creation; the next [uuid4]
    call returns the [n]-th identifier; and every record carries the
    key it is stored under as its [id]. *)
Theorem store_keeps_creation_order
    (ids : nat -> string) (clk : nat -> datetime) (evs : list event) :
  valid (boot ids clk) evs = true ->
  let n := length (filter counts_as_execute evs) in
  let w := world (run (boot ids clk) evs) in
  PyDict.keys (executions w) = map ids (seq 0 n) /\
  (exists summaries,
     list_executions w = (inl summaries, w) /\
     listed_ids summaries = map (fun k => VStr (ids k)) (seq 0 n)) /\
  uuid_source w 0 = ids n /\
  (forall eid r, PyDict.get eid (executions w) = Some r -> id r = eid).
Proof.
  intros Hv n w.
  destruct (run_drawn ids evs (boot ids clk) 0 Hv) as [Hkeys [Hsrc Hid]];
    [reflexivity|reflexivity|discriminate|].
  simpl in Hkeys, Hsrc. fold n in Hkeys, Hsrc. fold w in Hkeys, Hsrc, Hid.
  split; [exact Hkeys|]. split; [|split; [|exact Hid]].
  - eexists. split; [reflexivity|].
    unfold listed_ids, PyDict.items. rewrite map_map.
    rewrite <- (map_map ids VStr), <- Hkeys. unfold PyDict.keys. rewrite map_map.
    apply map_ext. intros [k e]. reflexivity.
  - rewrite Hsrc. f_equal. lia.
Qed.

Lemma store_keeps_creation_order_witness :
  valid (boot sample_ids sample_clock) sample_trace = true /\
  PyDict.keys (executions (world (run (boot sample_ids sample_clock) sample_trace))) =
    ["exec-0"; "exec-1"; "exec-2"] /\
  uuid_source (world (run (boot sample_ids sample_clock) sample_trace)) 0 = "exec-3".
Proof.
  split; [exact sample_trace_valid|].
  destruct (store_keeps_creation_order sample_ids sample_clock sample_trace
              sample_trace_valid) as [Hkeys [_ [Hnext _]]].
  split; [exact Hkeys|exact Hnext].
Defined.

Lemma execute_resume_calls eid o w :
  processor_calls (snd (execute_resume eid o w)) = processor_calls w.
Proof.
  destruct (PyDict.get eid (executions w)) as [r|] eqn:Hget.
  - rewrite (execute_resume_run _ _ _ _ Hget). destruct o; reflexivity.
  - unfold execute_resume, try_except, bind, await_processor.
    destruct o; simpl; unfold execute_tail, execute_except, bind, getitem, utcnow, raise;
      simpl; rewrite ?Hget; simpl; rewrite ?Hget; reflexivity.
Qed.

Lemma cancel_calls eid w : processor_calls (snd (cancel eid w)) = processor_calls w.
Proof.
  destruct (PyDict.get eid (executions w)) as [r|] eqn:Hget.
  - destruct (is_terminal (status r)) eqn:Ht.
    + now rewrite (cancel_terminal _ _ _ Hget Ht).
    + now rewrite (cancel_live _ _ _ Hget Ht).
  - now rewrite (cancel_unknown _ _ Hget).
Qed.

Lemma step_calls l ev :
  processor_calls (world (step l ev)) =
  (processor_calls (world l) ++ message_sent ev)%list.
Proof.
  destruct ev as [request o|request|eid o|eid|eid|]; simpl step; simpl message_sent;
    rewrite ?app_nil_r.
  - rewrite execute_run. unfold calls_after.
    destruct (effective o request); simpl; destruct (truthy _); now rewrite ?app_nil_r.
  - rewrite execute_begin_run. destruct (truthy _).
    + reflexivity.
    + rewrite (execute_except_run _ _ _ _ (entered_get _ _ _)). simpl.
      now rewrite app_nil_r.
  - apply execute_resume_calls.
  - apply cancel_calls.
  - now rewrite get_execution_status_run.
  - reflexivity.
Qed.

(** X4. The message processor is called exactly once for each execute
    call whose message is truthy, with that message as it came, in the
    order of the calls, and is called by nothing else: not by a
    rejected execute call, nor by cancel or the two readers. *)
Theorem processor_sees_each_valid_message_once (evs : list event) (l : Loop) :
  processor_calls (world (run l evs)) =
  (processor_calls (world l) ++ flat_map message_sent evs)%list.
Proof.
  revert l. induction evs as [|ev evs IH]; simpl; intros l.
  - now rewrite app_nil_r.
  - now rewrite IH, step_calls, app_assoc.
Qed.

(* ================================================================== *)
(** ** How the executor's operations compose *)

Lemma step_settled l ev :
  is_call ev = true ->
  (forall eid r, PyDict.get eid (executions (world l)) = Some r ->
                 status r = COMPLETED \/ status r = FAILED) ->
  forall eid r, PyDict.get eid (executions (world (step l ev))) = Some r ->
                status r = COMPLETED \/ status r = FAILED.
Proof.
  intros Hcall Hall. destruct ev as [request o|request|eid' o|eid'|eid'|];
    try discriminate; simpl step.
  - rewrite execute_run. destruct (effective o request); simpl; intros eid r Hget;
      destruct (PyDictFacts.get_set_cases _ _ _ _ _ Hget) as [[_ ->]|[_ Hold]]; eauto.
  - destruct (PyDict.get eid' (executions (world l))) as [r0|] eqn:Hget.
    + assert (Ht : is_terminal (status r0) = true)
        by (destruct (Hall _ _ Hget) as [-> | ->]; reflexivity).
      now rewrite (cancel_terminal _ _ _ Hget Ht).
    + now rewrite (cancel_unknown _ _ Hget).
  - now rewrite get_execution_status_run.
  - exact Hall.
Qed.

(** X5. When the calls come one after the other (each execute call
    returns before the next call starts), every record is Completed or
    Failed between calls, so [cancel] never cancels anything: on every
    id it returns an error result and leaves the world as it is. *)
Theorem sequential_cancel_never_succeeds
    (ids : nat -> string) (clk : nat -> datetime) (evs : list event) (eid : string) :
  forallb is_call evs = true ->
  (forall k r,
     PyDict.get k (executions (world (run (boot ids clk) evs))) = Some r ->
     status r = COMPLETED \/ status r = FAILED) /\
  exists result,
    cancel eid (world (run (boot ids clk) evs)) =
      (inl result, world (run (boot ids clk) evs)) /\
    PyDict.get "status" result = Some (VStr "error").
Proof.
  intros Hcalls.
  assert (Hall : forall k r,
            PyDict.get k (executions (world (run (boot ids clk) evs))) = Some r ->
            status r = COMPLETED \/ status r = FAILED).
  { assert (H0 : forall k r, PyDict.get k (executions (world (boot ids clk))) = Some r ->
                   status r = COMPLETED \/ status r = FAILED) by discriminate.
    revert H0 Hcalls. generalize (boot ids clk).
    induction evs as [|ev evs IH]; simpl; intros l H0 Hcalls; [exact H0|].
    apply andb_true_iff in Hcalls. destruct Hcalls as [Hc Hcalls].
    apply IH; [|assumption]. now apply step_settled. }
  split; [exact Hall|].
  destruct (PyDict.get eid (executions (world (run (boot ids clk) evs)))) as [r|] eqn:Hget.
  - assert (Ht : is_terminal (status r) = true)
      by (destruct (Hall _ _ Hget) as [-> | ->]; reflexivity).
    rewrite (cancel_terminal _ _ _ Hget Ht). eexists. split; reflexivity.
  - rewrite (cancel_unknown _ _ Hget). eexists. split; reflexivity.
Qed.

Lemma sequential_cancel_never_succeeds_witness :
  forallb is_call (firstn 2 sample_trace) = true /\
  exists result,
    cancel "exec-0" (world (run (boot sample_ids sample_clock) (firstn 2 sample_trace))) =
      (inl result, world (run (boot sample_ids sample_clock) (firstn 2 sample_trace))) /\
    PyDict.get "status" result = Some (VStr "error").
Proof.
  split; [reflexivity|].
  exact (proj2 (sequential_cancel_never_succeeds sample_ids sample_clock
                  (firstn 2 sample_trace) "exec-0" eq_refl)).
Defined.

(** X6. What [execute] returns can be read back: right after an
    execute call, [get_execution_status] on the returned id gives
    status "completed", the returned payload as result and no error
    when the call succeeded, and status "failed", no result and the
    payload's error text when it failed; start and end time are the
    first clock reading of the call and the one taken when the record
    was closed. *)
Theorem status_after_execute (o : outcome) (request : Dict) (w : World) :
  exists payload w',
    execute o request w = (inl payload, w') /\
    PyDict.get "execution_id" payload = Some (VStr (uuid_source w 0)) /\
    get_execution_status (uuid_source w 0) w' =
      (inl (if fails o request
            then [ ("execution_id", VStr (uuid_source w 0));
                   ("status", VStr "failed");
                   ("start_time", VStr (isoformat (clock w 0)));
                   ("end_time", VStr (isoformat (clock w 1)));
                   ("result", VNone);
                   ("error", PyDict.get_or "error" VNone payload) ]
            else [ ("execution_id", VStr (uuid_source w 0));
                   ("status", VStr "completed");
                   ("start_time", VStr (isoformat (clock w 0)));
                   ("end_time", VStr (isoformat (clock w 2)));
                   ("result", VDict payload);
                   ("error", VNone) ]),
       w').
Proof.
  rewrite execute_run.
  destruct (fails o request) eqn:Hf.
  - destruct (effective_fails _ _ Hf) as [e ->].
    do 2 eexists. split; [reflexivity|]. split; [reflexivity|].
    rewrite get_execution_status_run. simpl executions.
    rewrite PyDictFacts.get_set_same. reflexivity.
  - destruct (effective_succeeds _ _ Hf) as [response [-> ->]].
    do 2 eexists. split; [reflexivity|]. split; [reflexivity|].
    rewrite get_execution_status_run. simpl executions.
    rewrite PyDictFacts.get_set_same. reflexivity.
Qed.

(** X7. Cancelling twice: when a record is Pending or Running, the
    first [cancel] succeeds and an immediate second [cancel] of the
    same id is refused with "Execution already cancelled" and changes
    nothing. *)
Theorem cancel_twice (eid : string) (w : World) (r : Execution) :
  PyDict.get eid (executions w) = Some r ->
  is_terminal (status r) = false ->
  exists w1,
    cancel eid w =
      (inl [ ("execution_id", VStr eid); ("status", VStr "cancelled");
             ("message", VStr "Execution cancelled successfully") ], w1) /\
    cancel eid w1 =
      (inl [ ("execution_id", VStr eid); ("status", VStr "error");
             ("message", VStr "Execution already cancelled") ], w1).
Proof.
  intros Hget Ht. rewrite (cancel_live _ _ _ Hget Ht).
  eexists. split; [reflexivity|].
  rewrite (cancel_terminal eid _ (set_cancelled (clock w 0) r));
    [reflexivity| |reflexivity].
  simpl executions. apply PyDictFacts.get_set_same.
Qed.

Lemma cancel_twice_witness :
  exists w1,
    cancel "exec-0"
      (world (run (boot sample_ids sample_clock) (firstn 1 race_trace))) =
      (inl [ ("execution_id", VStr "exec-0"); ("status", VStr "cancelled");
             ("message", VStr "Execution cancelled successfully") ], w1) /\
    cancel "exec-0" w1 =
      (inl [ ("execution_id", VStr "exec-0"); ("status", VStr "error");
             ("message", VStr "Execution already cancelled") ], w1).
Proof.
  assert (Hget : PyDict.get "exec-0"
            (executions (world (run (boot sample_ids sample_clock) (firstn 1 race_trace)))) =
            Some (mkExecution "exec-0" RUNNING [("message", VStr "slow")] None None
                    (Some (sample_clock 0)) None)) by (vm_compute; reflexivity).
  exact (cancel_twice "exec-0" _ _ Hget eq_refl).
Defined.

(* ================================================================== *)
(** ** The two HTTP surfaces *)

(** X9. The two cancel routes do to the store what [cancel] does and
    agree on the outcome.  For a Pending or Running record both return
    the "cancelled" result (POST /cancel with code 200) and the record
    becomes Cancelled.  Otherwise POST /cancel answers 400 with the
    error result and POST /chat/cancel raises an HTTPException 400
    whose detail is the error message: "Execution not found" for an
    unknown id (400 here, not the 404 of the status routes), or
    "Execution already <status>"; the world is unchanged. *)
Theorem cancel_routes (eid : string) (w : World) :
  match PyDict.get eid (executions w) with
  | None =>
      _cancel_endpoint eid w =
        (inl (400, [ ("execution_id", VStr eid); ("status", VStr "error");
                     ("message", VStr "Execution not found") ]), w) /\
      cancel_chat_execution eid w =
        (inr (mkHTTPException 400 "Execution not found"), w)
  | Some r =>
      if is_terminal (status r)
      then
        _cancel_endpoint eid w =
          (inl (400, [ ("execution_id", VStr eid); ("status", VStr "error");
                       ("message", VStr ("Execution already " ++ value_of (status r))) ]),
           w) /\
        cancel_chat_execution eid w =
          (inr (mkHTTPException 400 ("Execution already " ++ value_of (status r))), w)
      else
        exists w',
          _cancel_endpoint eid w =
            (inl (200, [ ("execution_id", VStr eid); ("status", VStr "cancelled");
                         ("message", VStr "Execution cancelled successfully") ]), w') /\
          cancel_chat_execution eid w =
            (inl [ ("execution_id", VStr eid); ("status", VStr "cancelled");
                   ("message", VStr "Execution cancelled successfully") ], w') /\
          PyDict.get eid (executions w') = Some (set_cancelled (clock w 0) r)
  end.
Proof.
  unfold _cancel_endpoint, cancel_chat_execution, try_except, bind.
  destruct (PyDict.get eid (executions w)) as [r|] eqn:Hget.
  - destruct (is_terminal (status r)) eqn:Ht.
    + rewrite (cancel_terminal _ _ _ Hget Ht). split; reflexivity.
    + rewrite (cancel_live _ _ _ Hget Ht). eexists.
      split; [reflexivity|]. split; [reflexivity|].
      simpl executions. apply PyDictFacts.get_set_same.
  - rewrite (cancel_unknown _ _ Hget). split; reflexivity.
Qed.

(** X10. The two status routes agree: for an unknown id GET /status
    answers 404 and GET /chat/status raises an HTTPException 404 with
    detail "Execution not found"; for a stored record both return the
    same snapshot, GET /status with code 200.  Neither changes the
    world, whatever the record's state. *)
Theorem status_routes (eid : string) (w : World) :
  match PyDict.get eid (executions w) with
  | None =>
      get_chat_status eid w = (inr (mkHTTPException 404 "Execution not found"), w) /\
      fst (_status_endpoint eid w) =
        inl (404, [ ("execution_id", VStr eid); ("status", VStr "error");
                    ("message", VStr "Execution not found") ])
  | Some r =>
      exists snap,
        get_chat_status eid w = (inl snap, w) /\
        _status_endpoint eid w = (inl (200, snap), w) /\
        PyDict.get "status" snap = Some (VStr (value_of (status r))) /\
        PyDict.get "result" snap = Some (opt_dict (result r)) /\
        PyDict.get "error" snap = Some (opt_str (error r))
  end.
Proof.
  unfold get_chat_status, _status_endpoint, try_except, bind.
  rewrite get_execution_status_run.
  destruct (PyDict.get eid (executions w)) as [r|]; [|split; reflexivity].
  exists (snapshot eid r).
  assert (Hs : eq_str (PyDict.get_or "status" VNone (snapshot eid r)) "error" = false)
    by (unfold snapshot, PyDict.get_or; simpl; destruct (status r); reflexivity).
  rewrite Hs. repeat split.
Qed.

(** X11. What the chat route stores and what it gives back.  The
    request kept in the record has the message as sent; as conversation
    id the request's [conversation_id] unless that is null or empty,
    in which case its [session_id]; and as metadata the request's
    metadata, or an empty dictionary when that is null or empty.  The
    metadata of the chat response is always empty: the executor's
    payload has no "metadata" key, so nothing of the request's
    metadata comes back. *)
Theorem chat_request_as_stored (o : outcome) (req : ChatRequest.t) (w : World) :
  exists chat w' rec,
    chat_with_agent o req w = (inl chat, w') /\
    ChatResponse.metadata chat = VDict [] /\
    PyDict.get (uuid_source w 0) (executions w') = Some rec /\
    request rec =
      [ ("message", VStr (ChatRequest.message req));
        ("conversation_id",
           match ChatRequest.conversation_id req with
           | Some (String c rest) => VStr (String c rest)
           | Some EmptyString | None => opt_str (ChatRequest.session_id req)
           end);
        ("metadata",
           match ChatRequest.metadata req with
           | Some (item :: items) => VDict (item :: items)
           | Some [] | None => VDict []
           end) ].
Proof.
  unfold chat_with_agent. rewrite execute_run.
  assert (Hreq : execution_request req =
      [ ("message", VStr (ChatRequest.message req));
        ("conversation_id",
           match ChatRequest.conversation_id req with
           | Some (String c rest) => VStr (String c rest)
           | Some EmptyString | None => opt_str (ChatRequest.session_id req)
           end);
        ("metadata",
           match ChatRequest.metadata req with
           | Some (item :: items) => VDict (item :: items)
           | Some [] | None => VDict []
           end) ]).
  { unfold execution_request, py_or.
    destruct (ChatRequest.conversation_id req) as [[|c rest]|];
      destruct (ChatRequest.metadata req) as [[|item items]|]; reflexivity. }
  destruct (effective o (execution_request req)); do 3 eexists;
    (split; [reflexivity|]); (split; [reflexivity|]);
    (split; [simpl executions; apply PyDictFacts.get_set_same|]);
    exact Hreq.
Qed.

(* ================================================================== *)
(** ** The executor with its actual processor *)

Lemma prefix_empty s : String.prefix "" s = true.
Proof. destruct s; reflexivity. Qed.

Lemma prefix_app needle post : String.prefix needle (needle ++ post) = true.
Proof.
  induction needle as [|c needle IH]; simpl; [apply prefix_empty|].
  destruct (ascii_dec c c); [assumption|congruence].
Qed.

Lemma contains_middle needle pre post : contains needle (pre ++ needle ++ post) = true.
Proof.
  induction pre as [|c pre IH].
  - change (contains needle (needle ++ post) = true).
    apply contains_prefix, prefix_app.
  - change (String.prefix needle (String c (pre ++ needle ++ post)) ||
            contains needle (pre ++ needle ++ post) = true).
    rewrite IH. apply orb_true_r.
Qed.

(** X13. An exception inside the agent reaches the caller as a
    successful execution: the payload has status "success", its
    response is the agent's apology, which contains the text of the
    exception, and the record is Completed with no error. *)
Theorem agent_exception_is_reported_as_success
    (e : exn) (request : Dict) (w : World) :
  truthy (PyDict.get_or "message" (VStr "") request) = true ->
  exists payload w' rec text,
    execute
      (Returned (ProductManagementAgent.process_message
                   (ProductManagementAgent.Run_raised e))) request w =
      (inl payload, w') /\
    PyDict.get "status" payload = Some (VStr "success") /\
    PyDict.get "response" payload = Some (VStr text) /\
    contains (str e) text = true /\
    contains "I apologize" text = true /\
    PyDict.get (uuid_source w 0) (executions w') = Some rec /\
    status rec = COMPLETED /\
    error rec = None.
Proof.
  intros Hm. rewrite execute_run. unfold effective. rewrite Hm.
  do 4 eexists. split; [reflexivity|]. split; [reflexivity|]. split; [reflexivity|].
  split; [apply contains_middle|]. split; [reflexivity|].
  split; [simpl executions; apply PyDictFacts.get_set_same|]. split; reflexivity.
Qed.

Lemma agent_exception_is_reported_as_success_witness :
  truthy (PyDict.get_or "message" (VStr "") [("message", VStr "hello")]) = true /\
  exists payload w' rec text,
    execute
      (Returned (ProductManagementAgent.process_message
                   (ProductManagementAgent.Run_raised (OtherError "timeout"))))
      [("message", VStr "hello")] (world (boot sample_ids sample_clock)) =
      (inl payload, w') /\
    PyDict.get "status" payload = Some (VStr "success") /\
    PyDict.get "response" payload = Some (VStr text) /\
    contains (str (OtherError "timeout")) text = true /\
    contains "I apologize" text = true /\
    PyDict.get "exec-0" (executions w') = Some rec /\
    status rec = COMPLETED /\
    error rec = None.
Proof.
  split; [reflexivity|].
  exact (agent_exception_is_reported_as_success (OtherError "timeout")
           [("message", VStr "hello")] (world (boot sample_ids sample_clock)) eq_refl).
Defined.

(** X14. The text the agent returns: the content of the last response
    message when it has a non-empty one, that message's own rendering
    when its content is missing or empty, and a fixed sentence when
    the agent yielded nothing; earlier messages never matter. *)
Theorem agent_returns_last_message
    (earlier : list ProductManagementAgent.ChatMessage)
    (last_response : ProductManagementAgent.ChatMessage) :
  ProductManagementAgent.process_message
    (ProductManagementAgent.Run_yielded (earlier ++ [last_response])) =
    match ProductManagementAgent.content last_response with
    | Some (String c rest) => String c rest
    | Some EmptyString | None => ProductManagementAgent.rendered last_response
    end /\
  ProductManagementAgent.process_message (ProductManagementAgent.Run_yielded []) =
    "No response generated from the agent system.".
Proof.
  split; [|reflexivity].
  unfold ProductManagementAgent.process_message. rewrite rev_app_distr. simpl.
  destruct (ProductManagementAgent.content last_response) as [[|c rest]|]; reflexivity.
Qed.

(* ================================================================== *)
(** ** Environment variables *)

Lemma prefix_weaken needle a b :
  String.prefix needle a = true -> String.prefix needle (a ++ b) = true.
Proof.
  revert a. induction needle as [|c needle IH]; intros a; [intros _; apply prefix_empty|].
  destruct a as [|c' a]; simpl; [discriminate|].
  destruct (ascii_dec c c'); [apply IH|discriminate].
Qed.

Lemma contains_app_l needle a b :
  contains needle a = true -> contains needle (a ++ b) = true.
Proof.
  induction a as [|c a IH].
  - intros H. simpl in H. rewrite orb_false_r in H.
    apply contains_prefix. now apply (prefix_weaken needle "" b).
  - intros H.
    change (String.prefix needle (String c a) || contains needle a = true) in H.
    change (String.prefix needle (String c (a ++ b)) || contains needle (a ++ b) = true).
    apply orb_true_iff in H. apply orb_true_iff. destruct H as [H|H].
    + left. now apply (prefix_weaken needle (String c a) b).
    + right. now apply IH.
Qed.

Lemma contains_app_r needle a b :
  contains needle b = true -> contains needle (a ++ b) = true.
Proof.
  intros H. induction a as [|c a IH]; [exact H|].
  change (String.prefix needle (String c (a ++ b)) || contains needle (a ++ b) = true).
  rewrite IH. apply orb_true_r.
Qed.

Lemma contains_refl s : contains s s = true.
Proof. apply contains_prefix, prefix_refl. Qed.

Lemma contains_concat sep var vars :
  In var vars -> contains var (String.concat sep vars) = true.
Proof.
  induction vars as [|x vars IH]; [intros []|].
  intros [->|Hin].
  - destruct vars as [|y vars]; simpl.
    + apply contains_refl.
    + apply contains_app_l, contains_refl.
  - destruct vars as [|y vars]; [destruct Hin|].
    change (contains var (x ++ sep ++ String.concat sep (y :: vars)) = true).
    apply contains_app_r, contains_app_r, IH, Hin.
Qed.

Lemma notin_keys_get_None {V} k (d : PyDict.t V) :
  ~ In k (PyDict.keys d) -> PyDict.get k d = None.
Proof.
  unfold PyDict.keys. induction d as [|[k0 v0] d IH]; simpl; auto.
  intros H. destruct (String.eqb k k0) eqn:E.
  - apply String.eqb_eq in E. subst. tauto.
  - apply IH. tauto.
Qed.

Lemma copy_rebuilds (items acc : EnvUtils.Env) :
  NoDup (PyDict.keys (acc ++ items)%list) ->
  fold_left
    (fun validated_vars (item : string * option string) =>
       let '(key, value) := item in
       if existsb (String.eqb key) EnvUtils.required_vars
       then PyDict.set key value validated_vars
       else PyDict.set key value validated_vars)
    items acc = (acc ++ items)%list.
Proof.
  revert acc. induction items as [|[k v] items IH]; intros acc Hnd; cbn [fold_left].
  - now rewrite app_nil_r.
  - assert (Hnew : PyDict.get k acc = None).
    { apply notin_keys_get_None. unfold PyDict.keys in *.
      rewrite map_app in Hnd. simpl in Hnd.
      apply NoDup_remove_2 in Hnd. intros Hin. apply Hnd, in_or_app. now left. }
    assert (Hset : (if existsb (String.eqb k) EnvUtils.required_vars
                    then PyDict.set k v acc else PyDict.set k v acc) =
                   (acc ++ [(k, v)])%list).
    { destruct (existsb _ _); now apply PyDictOrder.set_new_app. }
    rewrite Hset, IH; rewrite <- app_assoc; [reflexivity|exact Hnd].
Qed.

Lemma filter_none {A} (f : A -> bool) (l : list A) :
  (forall x, In x l -> f x = false) -> filter f l = [].
Proof.
  induction l as [|x l IH]; simpl; intros H; [reflexivity|].
  rewrite (H x) by now left. apply IH. intros y Hy. apply H. now right.
Qed.

Lemma validate_env_vars_iff (env_vars : EnvUtils.Env) :
  NoDup (PyDict.keys env_vars) ->
  (forall var, In var EnvUtils.required_vars ->
     exists s, PyDict.get var env_vars = Some (Some s) /\ s <> "") <->
  EnvUtils.validate_env_vars env_vars = inl env_vars.
Proof.
  intros Hnd. unfold EnvUtils.validate_env_vars. split.
  - intros Hall.
    assert (Hf : filter (EnvUtils.unset env_vars) EnvUtils.required_vars = []).
    { apply filter_none. intros var Hin.
      destruct (Hall var Hin) as [s [Hget Hs]].
      unfold EnvUtils.unset. rewrite Hget. now apply String.eqb_neq. }
    rewrite Hf. f_equal. now apply (copy_rebuilds env_vars []).
  - intros H var Hin.
    destruct (filter (EnvUtils.unset env_vars) EnvUtils.required_vars) eqn:Hf;
      [|discriminate].
    assert (Hu : EnvUtils.unset env_vars var = false).
    { destruct (EnvUtils.unset env_vars var) eqn:Hu; [|reflexivity].
      assert (Hin' : In var (filter (EnvUtils.unset env_vars) EnvUtils.required_vars))
        by (apply filter_In; auto).
      rewrite Hf in Hin'. destruct Hin'. }
    unfold EnvUtils.unset in Hu.
    destruct (PyDict.get var env_vars) as [[s|]|]; try discriminate.
    exists s. split; [reflexivity|]. now apply String.eqb_neq.
Qed.

(** X15. [validate_env_vars] accepts a dictionary exactly when each of
    phi_4_endpoint, phi_4_api_key, phi_4_api_version and
    phi_4_deployment is present with a non-empty value, and then
    returns a copy with the same items in the same order; no other
    variable is looked at. *)
Theorem validate_env_vars_accepts (env_vars : EnvUtils.Env) :
  NoDup (PyDict.keys env_vars) ->
  (forall var, In var EnvUtils.required_vars ->
     exists s, PyDict.get var env_vars = Some (Some s) /\ s <> "") <->
  EnvUtils.validate_env_vars env_vars = inl env_vars.
Proof. exact (validate_env_vars_iff env_vars). Qed.

Lemma validate_env_vars_accepts_witness :
  NoDup (PyDict.keys (EnvUtils.load_env_vars sample_getenv)) /\
  EnvUtils.validate_env_vars (EnvUtils.load_env_vars sample_getenv) =
    inl (EnvUtils.load_env_vars sample_getenv).
Proof.
  assert (Hnd : NoDup (PyDict.keys (EnvUtils.load_env_vars sample_getenv))).
  { repeat (constructor; [simpl; intuition discriminate|]). constructor. }
  split; [exact Hnd|].
  apply (proj1 (validate_env_vars_accepts _ Hnd)).
  intros var Hin. simpl in Hin.
  destruct Hin as [<-|[<-|[<-|[<-|[]]]]]; exists "set"; split;
    try reflexivity; discriminate.
Defined.

(** X16. When a required variable is absent, null or empty,
    [validate_env_vars] raises a ValueError whose message starts with
    "Missing required environment variables: " and names that
    variable, whatever else the dictionary holds. *)
Theorem validate_env_vars_names_what_is_missing (env_vars : EnvUtils.Env) (var : string) :
  In var EnvUtils.required_vars ->
  EnvUtils.unset env_vars var = true ->
  exists msg,
    EnvUtils.validate_env_vars env_vars = inr (ValueError msg) /\
    String.prefix "Missing required environment variables: " msg = true /\
    contains var msg = true.
Proof.
  intros Hin Hu. unfold EnvUtils.validate_env_vars.
  assert (Hin' : In var (filter (EnvUtils.unset env_vars) EnvUtils.required_vars))
    by (apply filter_In; auto).
  destruct (filter (EnvUtils.unset env_vars) EnvUtils.required_vars) as [|x missing] eqn:Hf;
    [destruct Hin'|].
  eexists. split; [reflexivity|]. split.
  - apply prefix_app.
  - apply contains_app_r. now apply contains_concat.
Qed.

Lemma validate_env_vars_names_what_is_missing_witness :
  In "phi_4_api_key" EnvUtils.required_vars /\
  EnvUtils.unset [("phi_4_endpoint", Some "https://example"); ("phi_4_api_key", Some "")]
    "phi_4_api_key" = true /\
  exists msg,
    EnvUtils.validate_env_vars
      [("phi_4_endpoint", Some "https://example"); ("phi_4_api_key", Some "")] =
      inr (ValueError msg) /\
    String.prefix "Missing required environment variables: " msg = true /\
    contains "phi_4_api_key" msg = true.
Proof.
  assert (Hin : In "phi_4_api_key" EnvUtils.required_vars) by (simpl; tauto).
  split; [exact Hin|]. split; [reflexivity|].
  exact (validate_env_vars_names_what_is_missing
           [("phi_4_endpoint", Some "https://example"); ("phi_4_api_key", Some "")]
           "phi_4_api_key" Hin eq_refl).
Defined.

(** X17. Loading and validating: [validate_env_vars(load_env_vars())]
    succeeds exactly when the four phi_4 variables are set to
    non-empty values in the process environment, and then returns all
    fifteen loaded variables unchanged, the unset ones as null. *)
Theorem load_then_validate (getenv : string -> option string) :
  (forall var, In var EnvUtils.required_vars ->
     exists s, getenv var = Some s /\ s <> "") <->
  EnvUtils.validate_env_vars (EnvUtils.load_env_vars getenv) =
    inl (EnvUtils.load_env_vars getenv).
Proof.
  assert (Hnd : NoDup (PyDict.keys (EnvUtils.load_env_vars getenv))).
  { repeat (constructor; [simpl; intuition discriminate|]). constructor. }
  rewrite <- (validate_env_vars_iff _ Hnd).
  split; intros H var Hin; specialize (H var Hin); simpl in Hin;
    destruct Hin as [<-|[<-|[<-|[<-|[]]]]]; destruct H as [s [Hget Hs]];
    exists s; split; auto; simpl in *; congruence.
Qed.

Lemma load_then_validate_witness :
  (forall var, In var EnvUtils.required_vars ->
     exists s, sample_getenv var = Some s /\ s <> "") /\
  EnvUtils.validate_env_vars (EnvUtils.load_env_vars sample_getenv) =
    inl (EnvUtils.load_env_vars sample_getenv).
Proof.
  assert (H : forall var, In var EnvUtils.required_vars ->
                exists s, sample_getenv var = Some s /\ s <> "").
  { intros var Hin. simpl in Hin.
    destruct Hin as [<-|[<-|[<-|[<-|[]]]]]; exists "set"; split;
      try reflexivity; discriminate. }
  split; [exact H|].
  exact (proj1 (load_then_validate sample_getenv) H).
Defined.

(* ================================================================== *)
(** ** Isolation of executions *)

(** X18. An execute call works on its own record only: provided
    [uuid4] returns an id not yet in the store, every record that was
    in the store before the call is there unchanged after it, whether
    the call succeeds or fails. *)
Theorem execute_leaves_other_records
    (o : outcome) (req : Dict) (w : World) (eid : string) (r : Execution) :
  PyDict.mem (uuid_source w 0) (executions w) = false ->
  PyDict.get eid (executions w) = Some r ->
  PyDict.get eid (executions (snd (execute o req w))) = Some r.
Proof.
  intros Hfresh Hget. apply PyDictFacts.mem_false_get in Hfresh.
  assert (Hne : uuid_source w 0 <> eid) by congruence.
  rewrite execute_run.
  destruct (effective o req); simpl; now rewrite PyDictFacts.get_set_other.
Qed.

Lemma execute_leaves_other_records_witness :
  PyDict.mem "exec-3"
    (executions (world (run (boot sample_ids sample_clock) sample_trace))) = false /\
  PyDict.get "exec-2"
    (executions (world (run (boot sample_ids sample_clock) sample_trace))) =
    Some sample_cancelled /\
  PyDict.get "exec-2"
    (executions
       (snd (execute (Raised (OtherError "boom")) [("message", VStr "next")]
               (world (run (boot sample_ids sample_clock) sample_trace))))) =
    Some sample_cancelled.
Proof.
  assert (Hfresh : PyDict.mem
            (uuid_source (world (run (boot sample_ids sample_clock) sample_trace)) 0)
            (executions (world (run (boot sample_ids sample_clock) sample_trace))) = false)
    by (vm_compute; reflexivity).
  split; [vm_compute; reflexivity|]. split; [exact sample_final_cancelled|].
  exact (execute_leaves_other_records (Raised (OtherError "boom"))
           [("message", VStr "next")] _ "exec-2" sample_cancelled
           Hfresh sample_final_cancelled).
Defined.

(* ================================================================== *)
(** ** Exceptions that [except Exception] does not catch *)

(** [Full.execute_by] up to the processor call. *)
Lemma full_execute_by_start (processor : Full.P string) (request : Dict) (w : World) :
  Full.execute_by processor request w =
  if truthy (PyDict.get_or "message" (VStr "") request)
  then
    match processor (entered w request
                       (processor_calls w ++ [PyDict.get_or "message" (VStr "") request])%list)
    with
    | (inl response, w1) =>
        Full.try_except (Full.lift (execute_tail (uuid_source w 0) response))
          (fun e => Full.lift (execute_except (uuid_source w 0) e)) w1
    | (inr (Full.Exc e), w1) => Full.lift (execute_except (uuid_source w 0) e) w1
    | (inr (Full.Base b), w1) => (inr (Full.Base b), w1)
    end
  else Full.lift (execute_except (uuid_source w 0) (ValueError "Message is required"))
         (entered w request (processor_calls w)).
Proof.
  unfold Full.execute_by, Full.bind at 1, Full.lift at 1. rewrite execute_create_run.
  unfold Full.try_except at 1, Full.bind at 1, Full.lift at 1.
  rewrite (execute_head_run _ _ _ (new_execution w request))
    by apply PyDictFacts.get_set_same.
  simpl executions. rewrite PyDictFacts.set_set_same.
  destruct (truthy (PyDict.get_or "message" (VStr "") request)).
  - unfold Full.bind, Full.lift, call_processor. simpl.
    unfold entered, running_execution.
    destruct (processor _) as [[response|[e|b]] w1]; reflexivity.
  - reflexivity.
Qed.

(** On a processor that returns or raises an [Exception], the wider
    model of [execute] is the one used so far. *)
Lemma full_execute_agrees (o : outcome) (request : Dict) (w : World) :
  Full.execute (Full.behaviour_of o) request w = Full.lift (execute o request) w.
Proof.
  unfold Full.execute.
  change (Full.lift (execute o request) w) with
    (match execute o request w with
     | (inl a, w') => (inl a, w')
     | (inr e, w') => (inr (Full.Exc e), w')
     end).
  rewrite execute_run, full_execute_by_start. unfold effective, calls_after.
  destruct (truthy (PyDict.get_or "message" (VStr "") request)).
  - destruct o as [response|e]; simpl Full.answer; unfold Full.ret, Full.raise.
    + unfold Full.try_except, Full.lift.
      rewrite (execute_tail_run _ _ _ _ (entered_get _ _ _)).
      simpl executions. rewrite PyDictFacts.set_set_same. reflexivity.
    + unfold Full.lift.
      rewrite (execute_except_run _ _ _ _ (entered_get _ _ _)).
      simpl executions. rewrite PyDictFacts.set_set_same. reflexivity.
  - unfold Full.lift.
    rewrite (execute_except_run _ _ _ _ (entered_get _ _ _)).
    simpl executions. rewrite PyDictFacts.set_set_same. reflexivity.
Qed.

(** When the validation fails the processor is not awaited at all. *)
Lemma full_execute_by_rejected (processor : Full.P string) (o : outcome)
    (request : Dict) (w : World) :
  truthy (PyDict.get_or "message" (VStr "") request) = false ->
  Full.execute_by processor request w = Full.lift (execute o request) w.
Proof.
  intros Hm.
  change (Full.lift (execute o request) w) with
    (match execute o request w with
     | (inl a, w') => (inl a, w')
     | (inr e, w') => (inr (Full.Exc e), w')
     end).
  rewrite execute_run, full_execute_by_start. unfold effective, calls_after.
  rewrite Hm. unfold Full.lift.
  rewrite (execute_except_run _ _ _ _ (entered_get _ _ _)).
  simpl executions. rewrite PyDictFacts.set_set_same. reflexivity.
Qed.

(** [Full.execute] in closed form: the three things a processor can
    do, the validation deciding whether it is asked at all. *)
Lemma full_execute_run (b : Full.behaviour) (request : Dict) (w : World) :
  Full.execute b request w =
  match (if truthy (PyDict.get_or "message" (VStr "") request) then b
         else Full.Throws (Full.Exc (ValueError "Message is required"))) with
  | Full.Answers response =>
      (inl (success_payload (uuid_source w 0) response (clock w 1)),
       mkWorld (PyDict.set (uuid_source w 0)
                  (set_completed (success_payload (uuid_source w 0) response (clock w 1))
                     (clock w 2) (running_execution w request))
                  (executions w))
               (later 1 (uuid_source w)) (later 3 (clock w)) (calls_after w request))
  | Full.Throws (Full.Exc e) =>
      (inl (error_payload (uuid_source w 0) ("Execution failed: " ++ str e) (clock w 2)),
       mkWorld (PyDict.set (uuid_source w 0)
                  (set_failed ("Execution failed: " ++ str e) (clock w 1)
                     (running_execution w request))
                  (executions w))
               (later 1 (uuid_source w)) (later 3 (clock w)) (calls_after w request))
  | Full.Throws (Full.Base x) =>
      (inr (Full.Base x), entered w request (calls_after w request))
  end.
Proof.
  destruct (truthy (PyDict.get_or "message" (VStr "") request)) eqn:Hm.
  - destruct b as [response|[e|x]].
    + change (Full.Answers response) with (Full.behaviour_of (Returned response)).
      rewrite full_execute_agrees. unfold Full.lift. rewrite execute_run.
      unfold effective. rewrite Hm. reflexivity.
    + change (Full.Throws (Full.Exc e)) with (Full.behaviour_of (Raised e)).
      rewrite full_execute_agrees. unfold Full.lift. rewrite execute_run.
      unfold effective. rewrite Hm. reflexivity.
    + unfold Full.execute. rewrite full_execute_by_start, Hm.
      unfold calls_after. rewrite Hm. reflexivity.
  - unfold Full.execute.
    rewrite (full_execute_by_rejected _ (Returned "") _ _ Hm).
    unfold Full.lift. rewrite execute_run. unfold effective. rewrite Hm. reflexivity.
Qed.

(** A processor that only answers or raises can stand for one that
    does the same in every world. *)
Lemma full_execute_by_answer (processor : Full.P string) (b : Full.behaviour)
    (request : Dict) (w : World) :
  (forall w0, processor w0 = Full.answer b w0) ->
  Full.execute_by processor request w = Full.execute b request w.
Proof.
  intros H. unfold Full.execute. rewrite !full_execute_by_start, H. reflexivity.
Qed.

(** C1, as amended. For every request dictionary: when the message
    processor returns a text, [execute] returns a payload with status
    "success"; when the request fails validation (the processor is
    then not asked) or the processor raises an exception derived from
    [Exception], [execute] returns a payload, the record is Failed,
    its error is the message "Execution failed: ...", and the payload
    has status "error" and a response text containing that message.
    When the processor raises an exception outside [Exception]
    ([asyncio.CancelledError], [KeyboardInterrupt], [SystemExit]) for
    a valid request, the clause [except Exception] of line 96 does not
    catch it: [execute] raises it, and the record stays Running with
    no result, no error and no end time, as the call left it at its
    [await]. *)
Theorem execute_returns_unless_base_exception
    (b : Full.behaviour) (request : Dict) (w : World) :
  match (if truthy (PyDict.get_or "message" (VStr "") request) then b
         else Full.Throws (Full.Exc (ValueError "Message is required"))) with
  | Full.Answers response =>
      exists payload w',
        Full.execute b request w = (inl payload, w') /\
        PyDict.get "execution_id" payload = Some (VStr (uuid_source w 0)) /\
        PyDict.get "status" payload = Some (VStr "success") /\
        PyDict.get "response" payload = Some (VStr response)
  | Full.Throws (Full.Exc e) =>
      exists payload w' r error_msg text,
        Full.execute b request w = (inl payload, w') /\
        PyDict.get "execution_id" payload = Some (VStr (uuid_source w 0)) /\
        PyDict.get (uuid_source w 0) (executions w') = Some r /\
        status r = FAILED /\
        error r = Some error_msg /\
        error_msg = "Execution failed: " ++ str e /\
        PyDict.get "status" payload = Some (VStr "error") /\
        PyDict.get "response" payload = Some (VStr text) /\
        contains error_msg text = true
  | Full.Throws (Full.Base x) =>
      exists w' r,
        Full.execute b request w = (inr (Full.Base x), w') /\
        executions w' = executions (snd (execute_begin request w)) /\
        PyDict.get (uuid_source w 0) (executions w') = Some r /\
        status r = RUNNING /\
        result r = None /\ error r = None /\ end_time r = None
  end.
Proof.
  rewrite full_execute_run.
  destruct (if truthy (PyDict.get_or "message" (VStr "") request) then b
            else Full.Throws (Full.Exc (ValueError "Message is required")))
    as [response|[e|x]] eqn:Hcase.
  - do 2 eexists. repeat split.
  - exists (error_payload (uuid_source w 0) ("Execution failed: " ++ str e) (clock w 2)).
    eexists.
    exists (set_failed ("Execution failed: " ++ str e) (clock w 1)
              (running_execution w request)).
    exists ("Execution failed: " ++ str e), (apology ++ "Execution failed: " ++ str e).
    split; [reflexivity|]. split; [reflexivity|].
    split; [simpl executions; apply PyDictFacts.get_set_same|].
    split; [reflexivity|]. split; [reflexivity|]. split; [reflexivity|].
    split; [reflexivity|]. split; [reflexivity|]. apply contains_suffix.
  - assert (Hm : truthy (PyDict.get_or "message" (VStr "") request) = true)
      by (destruct (truthy _); [reflexivity|discriminate]).
    exists (entered w request (calls_after w request)), (running_execution w request).
    split; [reflexivity|]. split.
    + rewrite execute_begin_run. rewrite Hm. reflexivity.
    + split; [apply entered_get|repeat split].
Qed.

(** The claim as first stated fails where the processor's await is
    cancelled: a valid request, the processor raising
    [asyncio.CancelledError].  [execute] returns no payload, the
    exception leaves it, and the record is still Running. *)
Lemma execute_lets_cancelled_error_through :
  ~ (exists payload w',
       Full.execute (Full.Throws (Full.Base Full.CancelledError))
         [("message", VStr "hello")] (world (boot sample_ids sample_clock)) =
       (inl payload, w')) /\
  fst (Full.execute (Full.Throws (Full.Base Full.CancelledError))
         [("message", VStr "hello")] (world (boot sample_ids sample_clock))) =
    inr (Full.Base Full.CancelledError) /\
  PyDict.get "exec-0"
    (executions
       (snd (Full.execute (Full.Throws (Full.Base Full.CancelledError))
               [("message", VStr "hello")] (world (boot sample_ids sample_clock))))) =
    Some (mkExecution "exec-0" RUNNING [("message", VStr "hello")] None None
            (Some (sample_clock 0)) None).
Proof.
  split; [|split; vm_compute; reflexivity].
  intros [payload [w' H]]. apply (f_equal fst) in H. vm_compute in H. discriminate.
Qed.

(** X8. POST /execute, for a body that is not JSON or that parses to a
    JSON object.  It answers 500 when [request.json()] raises, and
    creates nothing.  It answers 400 when the object has no "message"
    key, and creates nothing.  Otherwise it runs [execute] and answers
    200 with its payload, also when that payload reports an error (an
    empty message, a processor raising an [Exception]); the only other
    way out is a processor raising outside [Exception], which passes
    the handler's own [except Exception] as well and leaves the
    handler as an exception, not as a 500 response. *)
Theorem execute_route_answers
    (b : Full.behaviour) (parsed : Full.json_body) (w : World) :
  match parsed with
  | Full.Malformed e =>
      Full._execute_endpoint b parsed w =
        (inl (500, [ ("error", VStr ("Execution failed: " ++ str e)) ]), w)
  | Full.Json_object body =>
      if PyDict.mem "message" body
      then
        match Full.execute b body w with
        | (inl payload, w') =>
            Full._execute_endpoint b parsed w = (inl (200, payload), w') /\
            (PyDict.get "status" payload = Some (VStr "success") \/
             PyDict.get "status" payload = Some (VStr "error"))
        | (inr r, w') =>
            Full._execute_endpoint b parsed w = (inr r, w') /\
            exists x, r = Full.Base x /\
              b = Full.Throws (Full.Base x) /\
              truthy (PyDict.get_or "message" (VStr "") body) = true
        end
      else
        Full._execute_endpoint b parsed w =
          (inl (400, [ ("error", VStr "Message is required") ]), w)
  end.
Proof.
  destruct parsed as [e|body]; [reflexivity|].
  unfold Full._execute_endpoint, Full.try_except, Full.bind, Full.ret.
  destruct (PyDict.mem "message" body); [|reflexivity].
  change (negb true) with false. cbv beta iota.
  rewrite full_execute_run.
  destruct (truthy (PyDict.get_or "message" (VStr "") body)) eqn:Hm.
  - destruct b as [response|[e|x]].
    + split; [reflexivity|left; reflexivity].
    + split; [reflexivity|right; reflexivity].
    + split; [reflexivity|]. exists x. repeat split.
  - split; [reflexivity|right; reflexivity].
Qed.

(** X12. The executor with [ProductManagementAgent.process_message] as
    its processor, two [except Exception] clauses in a row.  For a
    request with a truthy message: when the agent yields messages, the
    execution is Completed with the agent's text as response; when a
    statement of the agent's [try] block raises an [Exception], the
    agent's handler turns it into its apology, [execute] sees a normal
    answer, and the execution is Completed as well, so the handler of
    [execute] is never entered through the agent; when it raises
    outside [Exception], neither clause catches it, [execute] raises
    it and the record stays Running.  For a request without a truthy
    message the agent is not run and the execution is Failed. *)
Theorem agent_behind_the_executor
    (t : Full.agent_trial) (request : Dict) (w : World) :
  if truthy (PyDict.get_or "message" (VStr "") request)
  then
    match t with
    | Full.Fails (Full.Base x) =>
        exists w' rec,
          Full.execute_by (Full.process_message t) request w = (inr (Full.Base x), w') /\
          PyDict.get (uuid_source w 0) (executions w') = Some rec /\
          status rec = RUNNING /\ end_time rec = None
    | Full.Fails (Full.Exc e) =>
        exists payload w' rec,
          Full.execute_by (Full.process_message t) request w = (inl payload, w') /\
          PyDict.get "status" payload = Some (VStr "success") /\
          PyDict.get "response" payload =
            Some (VStr ("I apologize, but I encountered an error while processing your request: "
                          ++ str e ++ ". Please try again.")) /\
          PyDict.get (uuid_source w 0) (executions w') = Some rec /\
          status rec = COMPLETED /\ error rec = None
    | Full.Yields response_messages =>
        exists payload w' rec,
          Full.execute_by (Full.process_message t) request w = (inl payload, w') /\
          PyDict.get "status" payload = Some (VStr "success") /\
          PyDict.get "response" payload =
            Some (VStr (ProductManagementAgent.process_message
                          (ProductManagementAgent.Run_yielded response_messages))) /\
          PyDict.get (uuid_source w 0) (executions w') = Some rec /\
          status rec = COMPLETED /\ error rec = None
    end
  else
    exists payload w' rec,
      Full.execute_by (Full.process_message t) request w = (inl payload, w') /\
      PyDict.get "status" payload = Some (VStr "error") /\
      PyDict.get (uuid_source w 0) (executions w') = Some rec /\
      status rec = FAILED /\
      processor_calls w' = processor_calls w.
Proof.
  set (b := match t with
            | Full.Yields response_messages =>
                Full.Answers (ProductManagementAgent.process_message
                                (ProductManagementAgent.Run_yielded response_messages))
            | Full.Fails (Full.Exc e) =>
                Full.Answers (ProductManagementAgent.process_message
                                (ProductManagementAgent.Run_raised e))
            | Full.Fails (Full.Base x) => Full.Throws (Full.Base x)
            end).
  rewrite (full_execute_by_answer _ b) by (intros w0; destruct t as [ms|[e|x]]; reflexivity).
  rewrite full_execute_run. unfold calls_after.
  destruct (truthy (PyDict.get_or "message" (VStr "") request)).
  - destruct t as [ms|[e|x]]; simpl in b; subst b; cbv iota.
    + do 3 eexists. split; [reflexivity|]. split; [reflexivity|]. split; [reflexivity|].
      split; [simpl executions; apply PyDictFacts.get_set_same|]. split; reflexivity.
    + do 3 eexists. split; [reflexivity|]. split; [reflexivity|]. split; [reflexivity|].
      split; [simpl executions; apply PyDictFacts.get_set_same|]. split; reflexivity.
    + do 2 eexists. split; [reflexivity|].
      split; [apply entered_get|]. split; reflexivity.
  - do 3 eexists. split; [reflexivity|]. split; [reflexivity|].
    split; [simpl executions; apply PyDictFacts.get_set_same|]. split; reflexivity.
Qed.
